(** * The MCP sample client ([sample-mcp-clients/client.py])

    A shallow embedding of [MCPClient] and [main]: the server launcher
    selection, the tool schema adapter, one conversational turn
    ([process_query]), the interactive loop ([chat_loop]) and the
    exit-stack teardown ([cleanup]).

    The program talks to three collaborators that are not part of the
    repository: the MCP client library ([stdio_client], [ClientSession]),
    the model endpoint ([client.responses.create]) and [ast.literal_eval].
    They are taken as an environment [Env] of oracles.  Every oracle that
    performs I/O receives the history of the run so far, so it may answer
    differently at each call (a catalog that changes, a channel that drops
    in the middle of a run).  Effects are threaded through a state and
    exception monad [M]; the state records the exit stack, the [session]
    attribute and the chronological trace of everything the client did. *)

From Stdlib Require Import List String Ascii Bool Arith ZArith Lia.
From Stdlib Require Import DecimalString.
Import ListNotations.
Local Open Scope string_scope.
Local Open Scope list_scope.

Set Implicit Arguments.
Set Warnings "-register-all".

(** ** Python strings *)

Module PyStr.

Definition nl : string := String (ascii_of_nat 10) "".
Definition tab : string := String (ascii_of_nat 9) "".

(** [s.endswith(suffix)]: some tail of [s] is [suffix]. *)
Fixpoint endswith (s suffix : string) : bool :=
  String.eqb s suffix ||
  match s with
  | EmptyString => false
  | String _ s' => endswith s' suffix
  end.

(** Strings are byte strings: text outside ASCII is its UTF-8 encoding,
    and a character is one to four bytes. *)

(** [str.isspace] of a character of one byte: tab, line feed, vertical
    tab, form feed, carriage return, the four separators 28..31 and
    space. *)
Definition isspace (c : ascii) : bool :=
  let n := nat_of_ascii c in
  ((9 <=? n)%nat && (n <=? 13)%nat) || ((28 <=? n)%nat && (n <=? 32)%nat).

(** [str.isspace] of a character of two bytes: U+0085 and U+00A0. *)
Definition isspace2 (c1 c2 : ascii) : bool :=
  let a := nat_of_ascii c1 in
  let b := nat_of_ascii c2 in
  (a =? 194)%nat && ((b =? 133)%nat || (b =? 160)%nat).

(** [str.isspace] of a character of three bytes: U+1680, U+2000 to
    U+200A, U+2028, U+2029, U+202F, U+205F and U+3000.  No character of
    four bytes is whitespace. *)
Definition isspace3 (c1 c2 c3 : ascii) : bool :=
  let a := nat_of_ascii c1 in
  let b := nat_of_ascii c2 in
  let c := nat_of_ascii c3 in
  ((a =? 225)%nat && ((b =? 154)%nat && (c =? 128)%nat)) ||
  ((a =? 226)%nat &&
   (((b =? 128)%nat &&
     (((128 <=? c)%nat && (c <=? 138)%nat) ||
      (c =? 168)%nat || (c =? 169)%nat || (c =? 175)%nat)) ||
    ((b =? 129)%nat && (c =? 159)%nat))) ||
  ((a =? 227)%nat && ((b =? 128)%nat && (c =? 128)%nat)).

(** Two whitespace characters outside ASCII: the no-break space U+00A0
    and the ideographic space U+3000. *)
Definition nbsp : string :=
  String (ascii_of_nat 194) (String (ascii_of_nat 160) "").

Definition ideographic_space : string :=
  String (ascii_of_nat 227)
    (String (ascii_of_nat 128) (String (ascii_of_nat 128) "")).

(** [s.lstrip()]: the whitespace characters at the start are dropped. *)
Fixpoint lstrip (s : string) : string :=
  match s with
  | EmptyString => EmptyString
  | String c1 s1 =>
      if isspace c1 then lstrip s1
      else
        match s1 with
        | EmptyString => s
        | String c2 s2 =>
            if isspace2 c1 c2 then lstrip s2
            else
              match s2 with
              | EmptyString => s
              | String c3 s3 => if isspace3 c1 c2 c3 then lstrip s3 else s
              end
        end
  end.

(** [s.rstrip()]: the string is cut where only whitespace follows.  A
    whitespace character starts with no continuation byte, so the cut
    falls between two characters. *)
Fixpoint rstrip (s : string) : string :=
  match s with
  | EmptyString => EmptyString
  | String c s' =>
      if lstrip s =? "" then EmptyString else String c (rstrip s')
  end.

(** [s.strip()] *)
Definition strip (s : string) : string := rstrip (lstrip s).

(** The characters of a string, each with the bytes of its encoding. *)
Fixpoint chars (s : string) : list string :=
  match s with
  | EmptyString => []
  | String c1 s1 =>
      let n := nat_of_ascii c1 in
      if (n <? 192)%nat then String c1 EmptyString :: chars s1
      else
        match s1 with
        | EmptyString => [s]
        | String c2 s2 =>
            if (n <? 224)%nat then
              String c1 (String c2 EmptyString) :: chars s2
            else
              match s2 with
              | EmptyString => [s]
              | String c3 s3 =>
                  if (n <? 240)%nat then
                    String c1 (String c2 (String c3 EmptyString)) :: chars s3
                  else
                    match s3 with
                    | EmptyString => [s]
                    | String c4 s4 =>
                        String c1 (String c2 (String c3 (String c4 EmptyString)))
                          :: chars s4
                    end
              end
        end
  end.

Definition lower_ascii (c : ascii) : ascii :=
  let n := nat_of_ascii c in
  if (65 <=? n)%nat && (n <=? 90)%nat then ascii_of_nat (n + 32) else c.

(** [s.lower()] on the letters of ASCII; the bytes of other characters
    are kept.  No character outside ASCII has a lower case among the
    letters of ASCII but the Kelvin sign, whose lower case is "k", so
    [s.lower() == 'quit'] is decided as Python decides it. *)
Fixpoint lower (s : string) : string :=
  match s with
  | EmptyString => EmptyString
  | String c s' => String (lower_ascii c) (lower s')
  end.

(** ['=' * n] *)
Fixpoint repeat_eq (n : nat) : string :=
  match n with
  | O => EmptyString
  | S n' => String "="%char (repeat_eq n')
  end.

End PyStr.

(** ** Python values and exceptions *)

(** Values that [ast.literal_eval] can produce and that a JSON schema is
    made of. *)
Inductive pyvalue : Type :=
| PyNone
| PyBool (b : bool)
| PyInt (z : Z)
| PyFloat (lexeme : string)
| PyString (s : string)
| PyList (items : list pyvalue)
| PyDict (items : list (pyvalue * pyvalue)).

(** Exception classes.  The first group derives from [Exception]; the
    second derives from [BaseException] only and is not caught by
    [except Exception]. *)
Inductive exn_class : Type :=
| ValueError
| SyntaxError
| TypeError
| IndexError
| AttributeError
| UnboundLocalError
| EOFError
| OtherException (name : string)
| KeyboardInterrupt
| SystemExit
| CancelledError
| OtherBaseException (name : string).

Record exn : Type := Exn { exn_cls : exn_class; exn_msg : string }.

(** [isinstance(e, Exception)] *)
Definition is_Exception (e : exn) : bool :=
  match exn_cls e with
  | KeyboardInterrupt | SystemExit | CancelledError | OtherBaseException _ => false
  | _ => true
  end.

(** [str(e)] *)
Definition str (e : exn) : string := exn_msg e.

Inductive Result (A : Type) : Type :=
| Ok (a : A)
| Raise (e : exn).
Arguments Ok {A} a.
Arguments Raise {A} e.

(** ** MCP and model-endpoint data *)

Module Tool.
(** [mcp.types.Tool] *)
Record t : Type := Make
  { name : string; description : option string; inputSchema : pyvalue }.
End Tool.

Module FunctionTool.
(** One entry of the [tools] array sent to the model endpoint. *)
Record t : Type := Make
  { type : string; name : string; description : option string;
    parameters : pyvalue }.
End FunctionTool.

(** Content blocks of a tool result; only text blocks have [.text]. *)
Inductive ContentBlock : Type :=
| TextContent (text : string)
| NonTextContent (type : string).

Module CallToolResult.
Record t : Type := Make { content : list ContentBlock; isError : bool }.
End CallToolResult.

(** Content parts of an output message; a refusal has no [.text]. *)
Inductive OutputContent : Type :=
| OutputText (text : string)
| OutputRefusal (refusal : string).

(** Items of [response.output].  [OtherItem] stands for every item whose
    [type] tag carries none of the attributes read by the client
    (reasoning items, built-in tool calls, ...); [FalsyItem] for an
    element whose truth value is false, the only way to the [else]
    branch of [process_query]. *)
Inductive OutputItem : Type :=
| FunctionCall (name arguments : string)
| OutputMessage (content : list OutputContent)
| OtherItem (type : string)
| FalsyItem.

Module Response.
Record t : Type := Make { output : list OutputItem }.
End Response.

Module Message.
Record t : Type := Make { role : string; content : string }.
End Message.

Module ModelRequest.
(** The keyword arguments of [client.responses.create]. *)
Record t : Type := Make
  { model : string; input : list Message.t;
    tools : list FunctionTool.t; tool_choice : string }.
End ModelRequest.

(** ** State, trace and the effect monad *)

(** The two contexts entered on the exit stack: the [stdio_client]
    context (child process and its two streams, the Transport of the
    specification) and the [ClientSession] context. *)
Inductive Resource : Type := Transport | Session.

Inductive Request : Type :=
| Initialize
| ListTools
| CallTool (name : string) (arguments : pyvalue).

(** What the client does, in the order it does it. *)
Inductive Event : Type :=
| EvSpawn (command : string) (args : list string)
    (* [stdio_client(server_params)] is being entered *)
| EvEnter (r : Resource)
    (* [enter_async_context] returned: the exit of [r] is on the stack *)
| EvExit (r : Resource)
    (* the exit callback of [r] is called *)
| EvRequest (q : Request)
    (* a request issued on [self.session] *)
| EvModel (request : ModelRequest.t)
    (* [self.client.responses.create] *)
| EvInput (prompt : string)
    (* [input(prompt)] *)
| EvPrint (line : string)
| EvPrintTools (names : list string)
    (* the "Connected to server with tools:" line *)
| EvAclose.
    (* [self.exit_stack.aclose()] *)

(** The trace is kept newest first. *)
Record State : Type := MkState
  { trace : list Event;
    exit_stack : list Resource;   (* top of the stack first *)
    session : bool }.             (* [self.session is not None] *)

(** [MCPClient()] *)
Definition init : State :=
  {| trace := []; exit_stack := []; session := false |}.

Definition M (A : Type) : Type := State -> Result A * State.

Definition ret {A} (a : A) : M A := fun st => (Ok a, st).

Definition raise {A} (e : exn) : M A := fun st => (Raise e, st).

Definition bind {A B} (m : M A) (k : A -> M B) : M B :=
  fun st =>
    match m st with
    | (Ok a, st') => k a st'
    | (Raise e, st') => (Raise e, st')
    end.

Declare Scope py_scope.
Delimit Scope py_scope with py.
Notation "x <- m ;; k" := (bind m (fun x => k))
  (at level 61, m at next level, right associativity) : py_scope.
Notation "m ;; k" := (bind m (fun _ => k))
  (at level 61, right associativity) : py_scope.
Local Open Scope py_scope.

Definition log (ev : Event) : M unit :=
  fun st => (Ok tt, {| trace := ev :: trace st;
                       exit_stack := exit_stack st;
                       session := session st |}).

(** [print(line)] *)
Definition print (line : string) : M unit := log (EvPrint line).

(** An oracle is asked on the history so far; the event of the call is
    recorded whatever the answer. *)
Definition ask {A} (ev : Event) (oracle : list Event -> Result A) : M A :=
  fun st =>
    (oracle (trace st),
     {| trace := ev :: trace st;
        exit_stack := exit_stack st;
        session := session st |}).

(** [try: body  except Exception as e: handler(e)] *)
Definition try_except {A} (body : M A) (handler : exn -> M A) : M A :=
  fun st =>
    match body st with
    | (Raise e, st') =>
        if is_Exception e then handler e st' else (Raise e, st')
    | r => r
    end.

(** ** The environment *)

Record Env : Type := MkEnv
  { (* [stdio_client(params).__aenter__()]: starts the child process *)
    stdio_client : string -> list string -> list Event -> Result unit;
    (* [ClientSession(stdio, write).__aenter__()] *)
    client_session : list Event -> Result unit;
    (* the [__aexit__] of an entered context *)
    aexit : Resource -> list Event -> Result unit;
    initialize : list Event -> Result unit;
    list_tools : list Event -> Result (list Tool.t);
    call_tool : string -> pyvalue -> list Event -> Result CallToolResult.t;
    (* [client.responses.create(model=..., input, tools, tool_choice)] *)
    responses_create : ModelRequest.t -> list Event -> Result Response.t;
    (* [ast.literal_eval] *)
    literal_eval : string -> Result pyvalue }.

(** ** The client *)

Section Client.

Variable env : Env.

Import PyStr.

(** [await self.exit_stack.enter_async_context(cm)]: when [__aenter__]
    raises, nothing is pushed. *)
Definition enter_async_context
    (r : Resource) (aenter : list Event -> Result unit) : M unit :=
  fun st =>
    match aenter (trace st) with
    | Ok _ =>
        (Ok tt, {| trace := EvEnter r :: trace st;
                   exit_stack := r :: exit_stack st;
                   session := session st |})
    | Raise e => (Raise e, st)
    end.

Definition set_session : M unit :=
  fun st => (Ok tt, {| trace := trace st;
                       exit_stack := exit_stack st;
                       session := true |}).

(** [await self.session.<attr>(...)] *)
Definition session_request {A}
    (attr : string) (q : Request) (oracle : list Event -> Result A) : M A :=
  fun st =>
    if session st then ask (EvRequest q) oracle st
    else (Raise (Exn AttributeError
                   ("'NoneType' object has no attribute '" ++ attr ++ "'")),
          st).

Definition connect_to_server (server_script_path : string) : M unit :=
  let is_python := endswith server_script_path ".py" in
  let is_js := endswith server_script_path ".js" in
  if negb (is_python || is_js) then
    raise (Exn ValueError "Server script must be a .py or .js file")
  else
    let command := if is_python then "python" else "node" in
    let args := [server_script_path] in
    log (EvSpawn command args) ;;
    enter_async_context Transport (stdio_client env command args) ;;
    enter_async_context Session (client_session env) ;;
    set_session ;;
    session_request "initialize" Initialize (initialize env) ;;
    tools <- session_request "list_tools" ListTools (list_tools env) ;;
    log (EvPrintTools (map Tool.name tools)).

(** The tool schema adapter: the list comprehension of [process_query]. *)
Definition available_tools (tools : list Tool.t) : list FunctionTool.t :=
  map (fun tool =>
         {| FunctionTool.type := "function";
            FunctionTool.name := Tool.name tool;
            FunctionTool.description := Tool.description tool;
            FunctionTool.parameters := Tool.inputSchema tool |})
      tools.

(** [l[0]] *)
Definition getitem0 {A} (l : list A) : M A :=
  match l with
  | [] => raise (Exn IndexError "list index out of range")
  | x :: _ => ret x
  end.

(** The class of a content block that is not text, by its [type]. *)
Definition content_class (type : string) : string :=
  if type =? "image" then "ImageContent"
  else if type =? "audio" then "AudioContent"
  else if type =? "resource_link" then "ResourceLink"
  else if type =? "resource" then "EmbeddedResource"
  else type.

(** [block.text] *)
Definition block_text (b : ContentBlock) : M string :=
  match b with
  | TextContent text => ret text
  | NonTextContent type =>
      raise (Exn AttributeError
               ("'" ++ content_class type
                    ++ "' object has no attribute 'text'"))
  end.

(** [part.text] *)
Definition part_text (c : OutputContent) : M string :=
  match c with
  | OutputText text => ret text
  | OutputRefusal _ =>
      raise (Exn AttributeError
               "'ResponseOutputRefusal' object has no attribute 'text'")
  end.

Definition lift {A} (r : Result A) : M A := fun st => (r, st).

Definition unbound_final_message : exn :=
  Exn UnboundLocalError
      ("cannot access local variable 'final_message' " ++
       "where it is not associated with a value").

(** The arguments of the model call of one turn. *)
Definition model_request (query : string) (tools : list Tool.t)
  : ModelRequest.t :=
  let messages := [ {| Message.role := "user"; Message.content := query |} ] in
  {| ModelRequest.model := "ibm/granite-4-h-tiny";
     ModelRequest.input := messages;
     ModelRequest.tools := available_tools tools;
     ModelRequest.tool_choice := "auto" |}.

Definition process_query (query : string) : M string :=
  tools <- session_request "list_tools" ListTools (list_tools env) ;;
  let request := model_request query tools in
  response <- ask (EvModel request) (responses_create env request) ;;
  output <- getitem0 (Response.output response) ;;
  match output with
  | FunctionCall tool_name arguments =>
      tool_args <- lift (literal_eval env arguments) ;;
      tool_call <- session_request "call_tool" (CallTool tool_name tool_args)
                     (call_tool env tool_name tool_args) ;;
      block <- getitem0 (CallToolResult.content tool_call) ;;
      block_text block
  | OutputMessage content =>
      part <- getitem0 content ;;
      part_text part
  | OtherItem type =>
      if (type =? "function_call") || (type =? "message") then
        raise (Exn AttributeError "output item lacks the fields of its type")
      else
        (* neither branch assigned [final_message] *)
        raise unbound_final_message
  | FalsyItem => ret "No response generated."
  end.

(** The three ways one iteration of the loop ends without raising:
    [break], the ChatBot line, the Error line. *)
Inductive TurnOutcome : Type :=
| Quit
| Done (finalText : string)
| Failed (message : string).

Definition prompt : string := nl ++ "Query:" ++ nl ++ tab.

Definition chatbot_line (response : string) : string :=
  "ChatBot:" ++ nl ++ tab ++ response ++ nl ++ repeat_eq 60.

Definition error_line (e : exn) : string := nl ++ "Error: " ++ str e.

(** One iteration of [while True]; [line] is what [input] gives. *)
Definition turn (line : Result string) : M TurnOutcome :=
  try_except
    (raw <- ask (EvInput prompt) (fun _ => line) ;;
     let query := strip raw in
     if lower query =? "quit" then ret Quit
     else
       response <- process_query query ;;
       print (chatbot_line response) ;;
       ret (Done response))
    (fun e => print (error_line e) ;; ret (Failed (error_line e))).

(** The loop over what [input] gives, call after call; an [input] that
    raises, [EOFError] included, is a [Raise] element of [stdin].
    [None]: the loop has consumed all of [stdin] and still runs. *)
Fixpoint loop (stdin : list (Result string)) (st : State)
  : option (Result unit * State) :=
  match stdin with
  | [] => None
  | line :: rest =>
      match turn line st with
      | (Ok Quit, st') => Some (Ok tt, st')
      | (Ok _, st') => loop rest st'
      | (Raise e, st') => Some (Raise e, st')
      end
  end.

Definition chat_loop (stdin : list (Result string)) (st : State)
  : option (Result unit * State) :=
  match (print (nl ++ "MCP Client Started!") ;;
         print "Type your queries or 'quit' to exit.") st with
  | (Ok _, st') => loop stdin st'
  | (Raise e, st') => Some (Raise e, st')
  end.

(** The exit callbacks, popped one by one; a callback that raises does
    not stop the others, and the last exception raised is the one that
    leaves [aclose]. *)
Fixpoint run_exits (stack : list Resource) (pending : option exn)
    (tr : list Event) : option exn * list Event :=
  match stack with
  | [] => (pending, tr)
  | r :: rest =>
      run_exits rest
        (match aexit env r tr with Ok _ => pending | Raise e => Some e end)
        (EvExit r :: tr)
  end.

(** [await self.exit_stack.aclose()] *)
Definition aclose : M unit :=
  fun st =>
    let '(pending, tr) :=
      run_exits (exit_stack st) None (EvAclose :: trace st) in
    (match pending with None => Ok tt | Some e => Raise e end,
     {| trace := tr; exit_stack := []; session := session st |}).

Definition cleanup : M unit := aclose.

(** [try: ... finally: await client.cleanup()] *)
Definition finally_cleanup (body : option (Result unit * State))
  : option (Result unit * State) :=
  match body with
  | None => None
  | Some (r, st) =>
      match cleanup st with
      | (Ok _, st') => Some (r, st')
      | (Raise e, st') => Some (Raise e, st')
      end
  end.

Definition usage : string := "Usage: python client.py <path_to_server_script>".

Definition main (argv : list string) (stdin : list (Result string))
  : option (Result unit * State) :=
  if (List.length argv <? 2)%nat then
    Some ((print usage ;; raise (Exn SystemExit "1")) init)
  else
    let client := init in
    finally_cleanup
      match connect_to_server (nth 1 argv "") client with
      | (Ok _, st) => chat_loop stdin st
      | (Raise e, st) => Some (Raise e, st)
      end.

End Client.

(** ** Observations on a trace *)

Definition count (p : Event -> bool) (tr : list Event) : nat :=
  List.length (filter p tr).

Definition Resource_eqb (a b : Resource) : bool :=
  match a, b with
  | Transport, Transport | Session, Session => true
  | _, _ => false
  end.

Definition is_aclose (ev : Event) : bool :=
  match ev with EvAclose => true | _ => false end.

Definition is_enter (r : Resource) (ev : Event) : bool :=
  match ev with EvEnter r' => Resource_eqb r r' | _ => false end.

Definition is_exit (r : Resource) (ev : Event) : bool :=
  match ev with EvExit r' => Resource_eqb r r' | _ => false end.

Definition is_request (ev : Event) : bool :=
  match ev with EvRequest _ => true | _ => false end.

Definition is_initialize (ev : Event) : bool :=
  match ev with EvRequest Initialize => true | _ => false end.

Definition is_list_tools (ev : Event) : bool :=
  match ev with EvRequest ListTools => true | _ => false end.

Definition is_call_tool (ev : Event) : bool :=
  match ev with EvRequest (CallTool _ _) => true | _ => false end.

(** The child processes started, newest first. *)
Fixpoint spawned (tr : list Event) : list (string * list string) :=
  match tr with
  | [] => []
  | EvSpawn command args :: tr' => (command, args) :: spawned tr'
  | _ :: tr' => spawned tr'
  end.

(** The contexts entered and the contexts exited, newest first. *)
Fixpoint entered (tr : list Event) : list Resource :=
  match tr with
  | [] => []
  | EvEnter r :: tr' => r :: entered tr'
  | _ :: tr' => entered tr'
  end.

Fixpoint exited (tr : list Event) : list Resource :=
  match tr with
  | [] => []
  | EvExit r :: tr' => r :: exited tr'
  | _ :: tr' => exited tr'
  end.

(** The events of the interactive loop. *)
Definition chat_event (ev : Event) : bool :=
  match ev with
  | EvRequest ListTools | EvRequest (CallTool _ _)
  | EvModel _ | EvInput _ | EvPrint _ => true
  | _ => false
  end.

(** Events that leave the exit stack and its contexts alone. *)
Definition quiet (ev : Event) : bool :=
  match ev with
  | EvSpawn _ _ | EvEnter _ | EvExit _ | EvAclose => false
  | _ => true
  end.

(** The state once [ev] has been recorded. *)
Definition after (ev : Event) (st : State) : State := snd (log ev st).

(** How often [r] sits on the exit stack. *)
Definition on_stack (r : Resource) (stack : list Resource) : nat :=
  List.length (filter (Resource_eqb r) stack).

(** A line of input that ends the loop. *)
Definition is_quit (line : Result string) : bool :=
  match line with
  | Ok raw => PyStr.lower (PyStr.strip raw) =? "quit"
  | Raise _ => false
  end.

(** ** Sample environments *)

Module Sample.

Definition catalog : list Tool.t :=
  [ {| Tool.name := "search_by_place";
       Tool.description := Some "Earthquakes near a place";
       Tool.inputSchema :=
         PyDict [ (PyString "type", PyString "object");
                  (PyString "required", PyList [PyString "location"]) ] |};
    {| Tool.name := "search_by_time";
       Tool.description := None;
       Tool.inputSchema := PyDict [ (PyString "type", PyString "object") ] |} ].

(** A literal evaluator that knows one literal. *)
Definition toy_literal_eval (s : string) : Result pyvalue :=
  if s =? "{}" then Ok (PyDict [])
  else Raise (Exn SyntaxError "invalid syntax").

(** A hosting process with catalog [tools] that answers every call with
    [reply], and a model endpoint that always answers [output]. *)
Definition world (tools : list Tool.t) (output : list OutputItem)
    (reply : CallToolResult.t) : Env :=
  {| stdio_client := fun _ _ _ => Ok tt;
     client_session := fun _ => Ok tt;
     aexit := fun _ _ => Ok tt;
     initialize := fun _ => Ok tt;
     list_tools := fun _ => Ok tools;
     call_tool := fun _ _ _ => Ok reply;
     responses_create := fun _ _ => Ok {| Response.output := output |};
     literal_eval := toy_literal_eval |}.

Definition report (text : string) (failed : bool) : CallToolResult.t :=
  {| CallToolResult.content := [TextContent text];
     CallToolResult.isError := failed |}.

(** The executable of the runtime cannot be started. *)
Definition no_runtime : Env :=
  {| stdio_client := fun _ _ _ =>
       Raise (Exn (OtherException "FileNotFoundError") "No such file: python");
     client_session := fun _ => Ok tt;
     aexit := fun _ _ => Ok tt;
     initialize := fun _ => Ok tt;
     list_tools := fun _ => Ok [];
     call_tool := fun _ _ _ => Ok (report "" false);
     responses_create := fun _ _ => Ok {| Response.output := [] |};
     literal_eval := toy_literal_eval |}.

(** The hosting process starts but the handshake is not acknowledged. *)
Definition no_handshake : Env :=
  {| stdio_client := fun _ _ _ => Ok tt;
     client_session := fun _ => Ok tt;
     aexit := fun _ _ => Ok tt;
     initialize := fun _ =>
       Raise (Exn (OtherException "McpError") "Connection closed");
     list_tools := fun _ => Ok [];
     call_tool := fun _ _ _ => Ok (report "" false);
     responses_create := fun _ _ => Ok {| Response.output := [] |};
     literal_eval := toy_literal_eval |}.

(** The client state once [connect_to_server] has returned. *)
Definition connected (env : Env) : State :=
  snd (connect_to_server env "server.py" init).

End Sample.

(** [m] only adds events that satisfy [p] to the trace, and leaves the
    exit stack and the [session] attribute as they are. *)
Definition emits {A} (p : Event -> bool) (m : M A) : Prop :=
  forall st : State,
    exists evs : list Event,
      trace (snd (m st)) = evs ++ trace st /\
      forallb p evs = true /\
      exit_stack (snd (m st)) = exit_stack st /\
      session (snd (m st)) = session st.

(** ** Further observations *)

Definition is_model (ev : Event) : bool :=
  match ev with EvModel _ => true | _ => false end.

(** A string of whitespace characters only: [s.strip() == ''] . *)
Definition all_space (s : string) : bool := PyStr.lstrip s =? "".

(** A byte that starts the encoding of some whitespace character. *)
Definition leads_space (c : ascii) : bool :=
  let n := nat_of_ascii c in
  PyStr.isspace c ||
  (n =? 194)%nat || (n =? 225)%nat || (n =? 226)%nat || (n =? 227)%nat.

(** * The earthquake tool server ([sample-mcp-servers/srvr_earthquake.py])

    The tools that the client reaches through [call_tool].  The HTTP
    client, the clock and the arithmetic on floats are taken as an
    environment; JSON documents are [pyvalue]s.  A float is represented
    by its [repr], so that [str] of a float is its lexeme and the only
    floats that are false are the two zeros.  Strings are byte strings:
    text outside ASCII is its UTF-8 encoding.  Creating and closing the
    [httpx.AsyncClient] around a request is taken not to fail. *)

Module Server.

Import PyStr.

Inductive Event : Type :=
| Get (url : string) (headers : option pyvalue) (params : pyvalue)
      (timeout : string)
    (* [await client.get(url, headers=..., params=..., timeout=...)] *)
| Print (line : string)
| Clock.
    (* [datetime.now(timezone.utc)] *)

Record Env : Type := MkEnv
  { (* [client.get], [raise_for_status] and [.json()] of one request:
       the decoded document, or what one of the three raised.  The
       message of an [HTTPStatusError] stands for its status code and
       body, that of a [RequestError] for the URL and the error. *)
    http_get_json :
      string -> option pyvalue -> pyvalue -> string -> list Event ->
      Result pyvalue;
    (* [datetime.now(timezone.utc).strftime("%Y-%m-%dT%H:%M:%S")] *)
    utcnow : list Event -> string;
    (* the same for [datetime.now(timezone.utc) - timedelta(days=7)] *)
    utc_week_ago : list Event -> string;
    (* [float(x)] *)
    float : pyvalue -> Result pyvalue;
    (* [datetime.fromtimestamp(t / 1000, tz=timezone.utc)
          .strftime("%Y-%m-%d %H:%M:%S UTC")] *)
    utc_time_str : pyvalue -> Result string;
    (* [str(x)] of a list or dict *)
    str_container : pyvalue -> string;
    (* [round(sum(mags) / len(mags), 2)] *)
    mean_round2 : list pyvalue -> Result pyvalue;
    (* [max(mags)] *)
    max_of : list pyvalue -> Result pyvalue }.

(** A computation of the server: it may raise and it extends the log,
    newest event first. *)
Definition S (A : Type) : Type := list Event -> Result A * list Event.

Definition ret {A} (a : A) : S A := fun log => (Ok a, log).

Definition bind {A B} (m : S A) (k : A -> S B) : S B :=
  fun log =>
    match m log with
    | (Ok a, log') => k a log'
    | (Raise e, log') => (Raise e, log')
    end.

Definition lift {A} (r : Result A) : S A := fun log => (r, log).

Definition ask {A} (ev : Event) (oracle : list Event -> Result A) : S A :=
  fun log => (oracle log, ev :: log).

Definition print (line : string) : S unit := fun log => (Ok tt, Print line :: log).

(** [try: body  except Exception as e: handler(e)] *)
Definition try_except {A} (body : S A) (handler : exn -> S A) : S A :=
  fun log =>
    match body log with
    | (Raise e, log') =>
        if is_Exception e then handler e log' else (Raise e, log')
    | r => r
    end.

Declare Scope srv_scope.
Delimit Scope srv_scope with srv.
Notation "x <- m ;; k" := (bind m (fun x => k))
  (at level 61, m at next level, right associativity) : srv_scope.
Notation "m ;; k" := (bind m (fun _ => k))
  (at level 61, right associativity) : srv_scope.

(** Sequencing of computations that only raise. *)
Definition and_then {A B} (r : Result A) (k : A -> Result B) : Result B :=
  match r with
  | Ok a => k a
  | Raise e => Raise e
  end.

Fixpoint mapM {A B} (f : A -> Result B) (l : list A) : Result (list B) :=
  match l with
  | [] => Ok []
  | x :: l' =>
      and_then (f x) (fun y => and_then (mapM f l') (fun ys => Ok (y :: ys)))
  end.

(** *** Python operations on JSON values *)

Definition KeyError (key : string) : exn :=
  Exn (OtherException "KeyError") ("'" ++ key ++ "'").

(** [bool(v)] *)
Definition truthy (v : pyvalue) : bool :=
  match v with
  | PyNone => false
  | PyBool b => b
  | PyInt z => negb (z =? 0)%Z
  | PyFloat x => negb ((x =? "0.0") || (x =? "-0.0"))
  | PyString s => negb (s =? "")
  | PyList [] => false
  | PyList _ => true
  | PyDict [] => false
  | PyDict _ => true
  end.

(** The value under a string key; the keys of a dict are distinct. *)
Fixpoint lookup (key : string) (items : list (pyvalue * pyvalue))
  : option pyvalue :=
  match items with
  | [] => None
  | (PyString k, v) :: rest => if k =? key then Some v else lookup key rest
  | _ :: rest => lookup key rest
  end.

(** The value under the key [0], which [False] and the zero floats
    equal. *)
Fixpoint lookup_zero (items : list (pyvalue * pyvalue)) : option pyvalue :=
  match items with
  | [] => None
  | (k, v) :: rest =>
      let hit :=
        match k with
        | PyInt z => (z =? 0)%Z
        | PyBool b => negb b
        | PyFloat x => (x =? "0.0") || (x =? "-0.0")
        | _ => false
        end in
      if hit then Some v else lookup_zero rest
  end.

(** [type(v).__name__] *)
Definition type_name (v : pyvalue) : string :=
  match v with
  | PyNone => "NoneType"
  | PyBool _ => "bool"
  | PyInt _ => "int"
  | PyFloat _ => "float"
  | PyString _ => "str"
  | PyList _ => "list"
  | PyDict _ => "dict"
  end.

Definition not_subscriptable (v : pyvalue) : exn :=
  Exn TypeError ("'" ++ type_name v ++ "' object is not subscriptable").

(** [d.get(key, default)] *)
Definition py_get (d : pyvalue) (key : string) (default : pyvalue)
  : Result pyvalue :=
  match d with
  | PyDict items =>
      Ok match lookup key items with Some v => v | None => default end
  | _ =>
      Raise (Exn AttributeError
               ("'" ++ type_name d ++ "' object has no attribute 'get'"))
  end.

(** [d[key]] for a string [key] *)
Definition py_getitem (d : pyvalue) (key : string) : Result pyvalue :=
  match d with
  | PyDict items =>
      match lookup key items with
      | Some v => Ok v
      | None => Raise (KeyError key)
      end
  | PyList _ =>
      Raise (Exn TypeError "list indices must be integers or slices, not str")
  | PyString _ => Raise (Exn TypeError "string indices must be integers, not 'str'")
  | _ => Raise (not_subscriptable d)
  end.

(** [v[0]] *)
Definition py_getitem0 (v : pyvalue) : Result pyvalue :=
  match v with
  | PyList (x :: _) => Ok x
  | PyList [] => Raise (Exn IndexError "list index out of range")
  | PyString s =>
      match PyStr.chars s with
      | c :: _ => Ok (PyString c)
      | [] => Raise (Exn IndexError "string index out of range")
      end
  | PyDict items =>
      match lookup_zero items with
      | Some x => Ok x
      | None => Raise (Exn (OtherException "KeyError") "0")
      end
  | _ => Raise (not_subscriptable v)
  end.

(** The characters of a string, as values. *)
Definition chars (s : string) : list pyvalue := map PyString (PyStr.chars s).

(** [list(v)]: what a [for] loop or an unpacking goes through. *)
Definition py_iter (v : pyvalue) : Result (list pyvalue) :=
  match v with
  | PyList l => Ok l
  | PyString s => Ok (chars s)
  | PyDict items => Ok (map fst items)
  | _ => Raise (Exn TypeError ("'" ++ type_name v ++ "' object is not iterable"))
  end.

(** [len(v)]; a string has as many elements as characters. *)
Definition py_len (v : pyvalue) : Result nat :=
  match v with
  | PyList l => Ok (List.length l)
  | PyString s => Ok (List.length (PyStr.chars s))
  | PyDict items => Ok (List.length items)
  | _ =>
      Raise (Exn TypeError
               ("object of type '" ++ type_name v ++ "' has no len()"))
  end.

(** Where [seq[:n]] stops in a sequence of [len] elements. *)
Definition slice_stop (len : nat) (n : option Z) : nat :=
  match n with
  | None => len
  | Some z =>
      if (z <? 0)%Z then Z.to_nat (Z.of_nat len + z)
      else Nat.min len (Z.to_nat z)
  end.

(** [v[:n]] *)
Definition py_slice_to (v : pyvalue) (n : option Z) : Result pyvalue :=
  match v with
  | PyList l => Ok (PyList (firstn (slice_stop (List.length l) n) l))
  | PyString s =>
      let cs := PyStr.chars s in
      Ok (PyString (String.concat "" (firstn (slice_stop (List.length cs) n) cs)))
  | PyDict _ => Raise (Exn TypeError "unhashable type: 'slice'")
  | _ => Raise (not_subscriptable v)
  end.

Definition str_of_Z (z : Z) : string :=
  DecimalString.NilZero.string_of_int (Z.to_int z).

(** *** The tools *)

Section Tools.

Variable env : Env.

Local Open Scope srv_scope.

(** [str(v)], which is also how an f-string shows [v]. *)
Definition py_str (v : pyvalue) : string :=
  match v with
  | PyNone => "None"
  | PyBool true => "True"
  | PyBool false => "False"
  | PyInt z => str_of_Z z
  | PyFloat x => x
  | PyString s => s
  | PyList _ | PyDict _ => str_container env v
  end.

Definition USGS_API_BASE : string :=
  "https://earthquake.usgs.gov/fdsnws/event/1/query".

Definition USER_AGENT : string := "earthquake-app/1.0".

Definition usgs_headers : pyvalue :=
  PyDict [ (PyString "User-Agent", PyString USER_AGENT);
           (PyString "Accept", PyString "application/geo+json") ].

(** The line printed by the handler that catches [e]. *)
Definition usgs_error_line (e : exn) : string :=
  match exn_cls e with
  | OtherException name =>
      if name =? "HTTPStatusError" then "HTTP error: " ++ str e
      else if name =? "RequestError" then
        "Network error while requesting " ++ str e
      else "Unexpected error: " ++ str e
  | _ => "Unexpected error: " ++ str e
  end.

Definition make_usgs_request (url : string) (params : pyvalue) : S pyvalue :=
  try_except
    (ask (Get url (Some usgs_headers) params "30.0")
         (http_get_json env url (Some usgs_headers) params "30.0"))
    (fun e => print (usgs_error_line e) ;; ret PyNone).

Definition geocode_url : string := "https://nominatim.openstreetmap.org/search".

Definition make_geocoding_request (location_name : string) : S pyvalue :=
  let params_geo :=
    PyDict [ (PyString "q", PyString location_name);
             (PyString "format", PyString "json");
             (PyString "limit", PyInt 1) ] in
  try_except
    (results <- ask (Get geocode_url None params_geo "15.0")
                  (http_get_json env geocode_url None params_geo "15.0") ;;
     if negb (truthy results) then
       ret (PyString " Could not find location for '{location_name}'.")
     else
       loc <- lift (py_getitem0 results) ;;
       lat <- lift (py_getitem loc "lat") ;;
       latitude <- lift (float env lat) ;;
       lon <- lift (py_getitem loc "lon") ;;
       longitude <- lift (float env lon) ;;
       ret (PyDict [ (PyString "lat", latitude);
                     (PyString "lon", longitude) ]))
    (fun e =>
       ret (PyString ("Geocoding failed for '" ++ location_name ++ "': "
                      ++ str e))).

(** The f-string of [format_usgs_request]. *)
Definition report (place mag time_str depth lat lon url : string) : string :=
  nl ++ "    🌎 Earthquake Report" ++
  nl ++ "    --------------------" ++
  nl ++ "    📍 Location: " ++ place ++
  nl ++ "    💥 Magnitude: " ++ mag ++
  nl ++ "    ⏱  Time: " ++ time_str ++
  nl ++ "    📏 Depth: " ++ depth ++ " km" ++
  nl ++ "    🌐 Coordinates: lat=" ++ lat ++ ", lon=" ++ lon ++
  nl ++ "    🔗 More info: " ++ url ++
  nl ++ "    ".

Definition no_coordinates : pyvalue * pyvalue * pyvalue :=
  (PyNone, PyNone, PyNone).

Definition format_usgs_request (feature : pyvalue) : Result string :=
  and_then (py_getitem feature "properties") (fun props =>
  and_then (py_get feature "geometry" (PyDict [])) (fun geom =>
  and_then (py_get props "mag" (PyString "N/A")) (fun mag =>
  and_then (py_get props "place" (PyString "Unknown location")) (fun place =>
  and_then (py_get props "time" PyNone) (fun time_ms =>
  and_then (py_get props "url" (PyString "No URL available")) (fun url =>
  and_then (if truthy time_ms then utc_time_str env time_ms
            else Ok "Unknown time") (fun time_str =>
  and_then (py_get geom "coordinates" (PyList [PyNone; PyNone; PyNone]))
    (fun coords =>
  and_then (py_len coords) (fun n =>
  and_then (if (n =? 3)%nat then
              and_then (py_iter coords) (fun items =>
                match items with
                | [lon; lat; depth] => Ok (lon, lat, depth)
                | _ => Raise (Exn ValueError "wrong number of values to unpack")
                end)
            else Ok no_coordinates) (fun '(lon, lat, depth) =>
  Ok (report (py_str place) (py_str mag) time_str (py_str depth)
             (py_str lat) (py_str lon) (py_str url)))))))))))).

(** ["\n".join(results)] *)
Fixpoint join_lines (results : list string) : string :=
  match results with
  | [] => ""
  | [r] => r
  | r :: rest => r ++ nl ++ join_lines rest
  end.

(** [if not end_time: end_time = <now>] *)
Definition or_now (end_time : option string) : S string :=
  match end_time with
  | Some t => if t =? "" then ask Clock (fun log => Ok (utcnow env log))
              else ret t
  | None => ask Clock (fun log => Ok (utcnow env log))
  end.

Definition of_option_Z (n : option Z) : pyvalue :=
  match n with Some z => PyInt z | None => PyNone end.

(** [not data or not data.get("features")] *)
Definition no_features (data : pyvalue) : Result bool :=
  if negb (truthy data) then Ok true
  else and_then (py_get data "features" PyNone)
         (fun features => Ok (negb (truthy features))).

(** The reports of the first features, joined. *)
Definition reports (data : pyvalue) (max_results : option Z) : Result string :=
  and_then (py_getitem data "features") (fun all =>
  and_then (py_slice_to all max_results) (fun features =>
  and_then (py_iter features) (fun items =>
  and_then (mapM format_usgs_request items) (fun results =>
  Ok (join_lines results))))).

Definition get_earthquakes (start_time : string) (end_time : option string)
    (min_magnitude : pyvalue) (max_results : option Z) : S string :=
  end_time <- or_now end_time ;;
  let params :=
    PyDict [ (PyString "format", PyString "geojson");
             (PyString "starttime", PyString start_time);
             (PyString "endtime", PyString end_time);
             (PyString "minmagnitude", min_magnitude);
             (PyString "orderby", PyString "time");
             (PyString "limit", of_option_Z max_results) ] in
  data <- make_usgs_request USGS_API_BASE params ;;
  none <- lift (no_features data) ;;
  if (none : bool) then
    ret "No recent earthquakes found for the given filters."
  else lift (reports data max_results).

(** The magnitudes that are not [None], feature by feature. *)
Fixpoint magnitudes (features : list pyvalue) : Result (list pyvalue) :=
  match features with
  | [] => Ok []
  | f :: rest =>
      and_then (py_getitem f "properties") (fun props =>
      and_then (py_get props "mag" PyNone) (fun mag =>
      and_then (magnitudes rest) (fun mags =>
      Ok match mag with PyNone => mags | _ => mag :: mags end)))
  end.

Definition get_earthquake_stats (start_time : string)
    (end_time : option string) (min_magnitude : pyvalue) : S pyvalue :=
  end_time <- or_now end_time ;;
  let params :=
    PyDict [ (PyString "format", PyString "geojson");
             (PyString "starttime", PyString start_time);
             (PyString "endtime", PyString end_time);
             (PyString "minmagnitude", min_magnitude);
             (PyString "orderby", PyString "time") ] in
  data <- make_usgs_request USGS_API_BASE params ;;
  none <- lift (no_features data) ;;
  if (none : bool) then
    ret (PyDict [ (PyString "count", PyInt 0);
                  (PyString "average_magnitude", PyInt 0);
                  (PyString "largest_magnitude", PyInt 0);
                  (PyString "message", PyString "No earthquakes found.") ])
  else
    features <- lift (and_then (py_getitem data "features") py_iter) ;;
    mags <- lift (magnitudes features) ;;
    match mags with
    | [] =>
        ret (PyDict [ (PyString "count", PyInt 0);
                      (PyString "average_magnitude", PyInt 0);
                      (PyString "largest_magnitude", PyInt 0) ])
    | _ =>
        avg_mag <- lift (mean_round2 env mags) ;;
        max_mag <- lift (max_of env mags) ;;
        ret (PyDict [ (PyString "num_events",
                       PyInt (Z.of_nat (List.length mags)));
                      (PyString "average_magnitude", avg_mag);
                      (PyString "largest_magnitude", max_mag);
                      (PyString "start_time", PyString start_time);
                      (PyString "end_time", PyString end_time);
                      (PyString "source", PyString "USGS Earthquake API") ])
    end.

Definition search_earthquake_by_place (location : string)
    (radius_km : pyvalue) (start_time end_time : option string)
    (min_magnitude : pyvalue) (max_results : Z) : S string :=
  end_time <- match end_time with
              | None => ask Clock (fun log => Ok (utcnow env log))
              | Some t => ret t
              end ;;
  start_time <- match start_time with
                | None => ask Clock (fun log => Ok (utc_week_ago env log))
                | Some t => ret t
                end ;;
  geo_data <- make_geocoding_request location ;;
  if negb (truthy geo_data) then
    ret ("Unable to geocode location: " ++ location)%string
  else
    latitude <- lift (py_getitem geo_data "lat") ;;
    longitude <- lift (py_getitem geo_data "lon") ;;
    let params :=
      [ (PyString "format", PyString "geojson");
        (PyString "latitude", latitude);
        (PyString "longitude", longitude);
        (PyString "maxradiuskm", radius_km);
        (PyString "starttime", PyString start_time);
        (PyString "endtime", PyString end_time);
        (PyString "orderby", PyString "time");
        (PyString "limit", PyInt max_results) ] in
    let params :=
      match min_magnitude with
      | PyNone => params
      | _ => params ++ [ (PyString "minmagnitude", min_magnitude) ]
      end in
    data <- make_usgs_request USGS_API_BASE (PyDict params) ;;
    none <- lift (no_features data) ;;
    if (none : bool) then
      ret "No earthquakes found for the given region/time window."
    else lift (reports data (Some max_results)).

End Tools.

(** An answer of the catalog that leaves a tool without features: the
    request failed with an [Exception], or the document is empty, or it
    has no [features], or its [features] are empty. *)
Definition unavailable (answer : Result pyvalue) : Prop :=
  match answer with
  | Raise e => is_Exception e = true
  | Ok (PyDict items) =>
      match lookup "features" items with
      | Some features => truthy features = false
      | None => True
      end
  | Ok data => truthy data = false
  end.

(** The clock readings that [or_now] and the defaults of the search add
    to the log. *)
Definition clock_reads (given : option string) : list Event :=
  match given with None => [Clock] | Some _ => [] end.

(** An environment for examples: the geocoder answers [hits], the
    catalog answers [catalog]. *)
Definition sample (hits catalog : Result pyvalue) : Env :=
  {| http_get_json := fun url _ _ _ _ =>
       if url =? geocode_url then hits else catalog;
     utcnow := fun _ => "2026-01-08T00:00:00";
     utc_week_ago := fun _ => "2026-01-01T00:00:00";
     float := fun v =>
       match v with
       | PyString s => Ok (PyFloat s)
       | _ => Raise (Exn TypeError "float() argument must be a string or a real number")
       end;
     utc_time_str := fun _ => Ok "2026-01-07 12:00:00 UTC";
     str_container := fun _ => "[]";
     mean_round2 := fun _ => Ok (PyFloat "4.2");
     max_of := fun _ => Ok (PyFloat "4.2") |}.

Definition tokyo : pyvalue :=
  PyList [ PyDict [ (PyString "lat", PyString "35.68");
                    (PyString "lon", PyString "139.76") ] ].

(** A feature with a magnitude and a point of two coordinates. *)
Definition quake : pyvalue :=
  PyDict [ (PyString "properties",
            PyDict [ (PyString "mag", PyFloat "4.2");
                     (PyString "place", PyString "10 km E of Tokyo") ]);
           (PyString "geometry",
            PyDict [ (PyString "coordinates",
                      PyList [PyFloat "139.9"; PyFloat "35.7"]) ]) ].

End Server.

(** ** What connecting does *)

(** [connect_to_server] has launched [path] with [command]: the one
    process started is [command path], and what follows is decided by
    what starting it gave: its failure is the failure of connecting,
    with nothing entered, and otherwise the Transport is entered and
    sits at the bottom of what connecting adds to the exit stack. *)
Definition launches (env : Env) (command path : string)
    (st : State) (r : Result unit) (st' : State) : Prop :=
  let args := [path] in
  let started := EvSpawn command args :: trace st in
  spawned (trace st') = (command, args) :: spawned (trace st) /\
  match stdio_client env command args started with
  | Raise e => r = Raise e /\ st' = after (EvSpawn command args) st
  | Ok _ =>
      exists evs stack,
        trace st' = evs ++ EvEnter Transport :: started /\
        exit_stack st' = stack ++ Transport :: exit_stack st
  end.

(** How one iteration of the loop hands over to the rest of the input. *)
Definition continue_with (env : Env) (rest : list (Result string))
    (outcome : Result TurnOutcome * State) : option (Result unit * State) :=
  match outcome with
  | (Ok Quit, st) => Some (Ok tt, st)
  | (Ok _, st) => loop env rest st
  | (Raise e, st) => Some (Raise e, st)
  end.

(** After the turn on [line], which leads from [st] to [st'], the loop
    takes the next input: it reads the next line on top of what the
    turn left, ends there if the line is a quit line, and otherwise
    sends the query to the session, starting with its [list_tools]
    request. *)
Definition goes_on (env : Env) (line : Result string) (st st' : State)
  : Prop :=
  (forall next rest,
     loop env (line :: next :: rest) st
     = continue_with env rest (turn env next st')) /\
  (forall raw rest,
     is_quit (Ok raw) = true ->
     loop env (line :: Ok raw :: rest) st
     = Some (Ok tt, after (EvInput prompt) st')) /\
  (forall raw,
     is_quit (Ok raw) = false ->
     exists evs,
       trace (snd (turn env (Ok raw) st'))
       = evs ++ EvRequest ListTools :: EvInput prompt :: trace st').

(** The state after [n] calls of [input] that raised [e], each one
    printed by the handler of the loop. *)
Definition after_errors (e : exn) (n : nat) (st : State) : State :=
  Nat.iter n
    (fun s => after (EvPrint (error_line e)) (after (EvInput prompt) s)) st.

Definition is_input (ev : Event) : bool :=
  match ev with EvInput _ => true | _ => false end.

Definition is_print (ev : Event) : bool :=
  match ev with EvPrint _ => true | _ => false end.

(** * Properties *)

Local Open Scope py_scope.

(** ** Strings *)

Lemma endswith_refl (s : string) : PyStr.endswith s s = true.
Proof.
  destruct s; simpl.
  - reflexivity.
  - rewrite Ascii.eqb_refl, String.eqb_refl. reflexivity.
Qed.

(** [endswith] is Python's: the string is some stem followed by the
    suffix. *)
Lemma endswith_spec (s suffix : string) :
  PyStr.endswith s suffix = true <-> exists stem, s = (stem ++ suffix)%string.
Proof.
  split.
  - induction s as [|c s IH]; cbn [PyStr.endswith]; intro H.
    + rewrite orb_false_r in H. apply String.eqb_eq in H.
      exists EmptyString. exact H.
    + apply orb_true_iff in H. destruct H as [H|H].
      * apply String.eqb_eq in H. exists EmptyString. exact H.
      * destruct (IH H) as [stem E]. exists (String c stem).
        cbn [append]. now rewrite E.
  - intros [stem E]. subst s.
    induction stem as [|c stem IH].
    + apply endswith_refl.
    + change (String c stem ++ suffix)%string with (String c (stem ++ suffix)).
      cbn [PyStr.endswith]. rewrite IH. apply orb_true_r.
Qed.

(** No path ends in both recognized extensions. *)
Lemma py_js_exclusive (path : string) :
  PyStr.endswith path ".py" = true -> PyStr.endswith path ".js" = false.
Proof.
  induction path as [|c path IH].
  - discriminate.
  - cbn [PyStr.endswith]. intro H.
    apply orb_true_iff in H. destruct H as [H|H].
    + apply String.eqb_eq in H. injection H as -> ->. reflexivity.
    + rewrite (IH H), orb_false_r.
      destruct (String.eqb_spec (String c path) ".js") as [E|E];
        [|reflexivity].
      injection E as -> ->. vm_compute in H. discriminate H.
Qed.

(** ** The tool schema adapter *)

(** C7: the adapter keeps the length and the order of the descriptors,
    and entry [i] carries the name, the description and, unmodified, the
    parameter schema of descriptor [i]. *)
Theorem adapter_preserves_catalog (tools : list Tool.t) :
  List.length (available_tools tools) = List.length tools /\
  map FunctionTool.parameters (available_tools tools)
    = map Tool.inputSchema tools /\
  map FunctionTool.name (available_tools tools) = map Tool.name tools /\
  forall i : nat,
    nth_error (available_tools tools) i =
    option_map
      (fun tool =>
         {| FunctionTool.type := "function";
            FunctionTool.name := Tool.name tool;
            FunctionTool.description := Tool.description tool;
            FunctionTool.parameters := Tool.inputSchema tool |})
      (nth_error tools i).
Proof.
  unfold available_tools.
  repeat split.
  - apply length_map.
  - rewrite map_map. reflexivity.
  - rewrite map_map. reflexivity.
  - intro i. apply nth_error_map.
Qed.

(** ** Launcher selection *)

Ltac step :=
  match goal with
  | |- context [match ?x with Ok _ => _ | Raise _ => _ end] =>
      destruct x eqn:?
  | |- context [if ?b then _ else _] => destruct b eqn:?
  end.

Ltac run :=
  cbv beta iota delta
    [bind ret raise log print ask lift session_request enter_async_context
     set_session getitem0 block_text part_text try_except]; cbn.

(** C9: a path ending in [.py] is launched with [python], a path ending
    in [.js] with [node], each with the path as only argument: that
    process and no other is started, and its start decides how
    connecting goes on.  Any other path makes [connect_to_server] raise
    its [ValueError], leaving the client as it was: nothing is spawned,
    nothing is entered. *)
Theorem connect_selects_launcher (env : Env) (path : string) (st : State) :
  let (r, st') := connect_to_server env path st in
  (PyStr.endswith path ".py" = true /\ launches env "python" path st r st') \/
  (PyStr.endswith path ".js" = true /\ launches env "node" path st r st') \/
  (PyStr.endswith path ".py" = false /\ PyStr.endswith path ".js" = false /\
   r = Raise (Exn ValueError "Server script must be a .py or .js file") /\
   st' = st).
Proof.
  unfold connect_to_server, launches.
  destruct (PyStr.endswith path ".py") eqn:Hpy;
    destruct (PyStr.endswith path ".js") eqn:Hjs; cbn [orb negb].
  4: { right; right. repeat split; reflexivity. }
  all: run; repeat (step; cbn);
    first [ left; split; [reflexivity|]
          | right; left; split; [reflexivity|] ];
    (split; [reflexivity|]);
    solve [ split; reflexivity
          | exists [], []; split; reflexivity
          | exists [EvEnter Session], [Session]; split; reflexivity
          | eexists [_; _], [Session]; split; reflexivity
          | eexists [_; _; _], [Session]; split; reflexivity
          | eexists [_; _; _; _], [Session]; split; reflexivity ].
Qed.

(** ** What a computation adds to the trace *)

Section Emission.

Variable p : Event -> bool.

Lemma emits_ret {A} (a : A) : emits p (ret a).
Proof. intro st. exists []. cbn. auto. Qed.

Lemma emits_raise {A} (e : exn) : emits p (@raise A e).
Proof. intro st. exists []. cbn. auto. Qed.

Lemma emits_lift {A} (r : Result A) : emits p (lift r).
Proof. intro st. exists []. cbn. auto. Qed.

Lemma emits_ask {A} (ev : Event) (oracle : list Event -> Result A) :
  p ev = true -> emits p (ask ev oracle).
Proof. intros H st. exists [ev]. cbn. rewrite H. auto. Qed.

Lemma emits_log (ev : Event) : p ev = true -> emits p (log ev).
Proof. intros H st. exists [ev]. cbn. rewrite H. auto. Qed.

Lemma emits_session_request {A} (attr : string) (q : Request)
    (oracle : list Event -> Result A) :
  p (EvRequest q) = true -> emits p (session_request attr q oracle).
Proof.
  intros H st. unfold session_request.
  generalize (emits_ask oracle H st).
  destruct (session st) eqn:E; intro Hask.
  - exact Hask.
  - exists []. cbn. auto.
Qed.

Lemma emits_bind {A B} (m : M A) (k : A -> M B) :
  emits p m -> (forall a, emits p (k a)) -> emits p (bind m k).
Proof.
  intros Hm Hk st. unfold bind.
  destruct (Hm st) as [evs (Ht & Hp & Hx & Hs)].
  destruct (m st) as [[a|e] st1]; cbn [snd] in *.
  - destruct (Hk a st1) as [evs' (Ht' & Hp' & Hx' & Hs')].
    exists (evs' ++ evs). rewrite Ht', Ht, app_assoc, forallb_app, Hp, Hp'.
    repeat split; congruence.
  - exists evs. auto.
Qed.

Lemma emits_try_except {A} (body : M A) (handler : exn -> M A) :
  emits p body -> (forall e, emits p (handler e)) ->
  emits p (try_except body handler).
Proof.
  intros Hb Hh st. unfold try_except.
  destruct (Hb st) as [evs (Ht & Hp & Hx & Hs)].
  destruct (body st) as [[a|e] st1]; cbn [snd] in *.
  - exists evs. auto.
  - destruct (is_Exception e).
    + destruct (Hh e st1) as [evs' (Ht' & Hp' & Hx' & Hs')].
      exists (evs' ++ evs). rewrite Ht', Ht, app_assoc, forallb_app, Hp, Hp'.
      repeat split; congruence.
    + exists evs. auto.
Qed.

Lemma emits_getitem0 {A} (l : list A) : emits p (getitem0 l).
Proof. destruct l; [apply emits_raise | apply emits_ret]. Qed.

Lemma emits_block_text (b : ContentBlock) : emits p (block_text b).
Proof. destruct b; [apply emits_ret | apply emits_raise]. Qed.

Lemma emits_part_text (c : OutputContent) : emits p (part_text c).
Proof. destruct c; [apply emits_ret | apply emits_raise]. Qed.

End Emission.

Create HintDb emits.
#[local] Hint Resolve emits_ret emits_raise emits_lift emits_getitem0
  emits_block_text emits_part_text : emits.

Ltac emits_auto :=
  repeat first
    [ apply emits_bind; [|intro]
    | apply emits_try_except; [|intro]
    | apply emits_session_request; reflexivity
    | apply emits_ask; reflexivity
    | apply emits_log; reflexivity
    | match goal with
      | |- emits _ (match ?output with FalsyItem => _ | _ => _ end) =>
          destruct output
      | |- emits _ (if ?b then _ else _) => destruct b
      end
    | progress auto with emits ].

Lemma count_app (p : Event -> bool) (a b : list Event) :
  count p (a ++ b) = count p a + count p b.
Proof. unfold count. now rewrite filter_app, length_app. Qed.

(** Events that all fail [q] do not count for [q]. *)
Lemma count_none (p q : Event -> bool) (evs : list Event) :
  (forall ev, p ev = true -> q ev = false) ->
  forallb p evs = true -> count q evs = 0.
Proof.
  intros Hpq. induction evs as [|ev evs IH]; cbn; [reflexivity|].
  intro H. apply andb_true_iff in H. destruct H as [Hev Hevs].
  unfold count in *. cbn. rewrite (Hpq ev Hev). auto.
Qed.

(** ** One turn: [process_query] *)

Section Turn.

Variable env : Env.
Variables (query : string) (st : State).
Hypothesis connected : session st = true.

(** With the session set, the turn starts with a [list_tools] request;
    what follows adds [call_tool] requests and model calls only. *)
Lemma process_query_lists_first :
  exists evs,
    trace (snd (process_query env query st))
      = evs ++ EvRequest ListTools :: trace st /\
    count is_list_tools evs = 0 /\
    exit_stack (snd (process_query env query st)) = exit_stack st /\
    session (snd (process_query env query st)) = true.
Proof.
  destruct (process_query env query st) as [r st'] eqn:E.
  unfold process_query in E.
  unfold bind at 1 in E. unfold session_request at 1 in E.
  rewrite connected in E. unfold ask at 1 in E.
  destruct (list_tools env (trace st)) as [tools|e]; cbn [fst snd] in *.
  2: { injection E as <- <-. exists []. cbn. auto. }
  match type of E with
  | ?m ?s = _ =>
      assert (Hm : emits (fun ev => negb (is_list_tools ev) && quiet ev) m);
      [|destruct (Hm s) as [evs (Ht & Hp & Hx & Hs)]; exists evs]
  end.
  - emits_auto.
  - rewrite E in Ht, Hx, Hs. cbn [snd trace exit_stack session] in *.
    rewrite Ht, Hx, Hs. repeat split; auto.
    apply count_none with (2 := Hp).
    intros ev H. apply andb_true_iff in H. destruct H as [H _].
    now apply negb_true_iff in H.
Qed.

Variable tools : list Tool.t.
Hypothesis listed : list_tools env (trace st) = Ok tools.

Let request := model_request query tools.
Let asked := EvModel request :: EvRequest ListTools :: trace st.

(** The turn up to the interpretation of the first output item. *)
Lemma process_query_model (response : Response.t) :
  responses_create env request (EvRequest ListTools :: trace st)
    = Ok response ->
  process_query env query st =
  (output <- getitem0 (Response.output response) ;;
   match output with
   | FunctionCall tool_name arguments =>
       tool_args <- lift (literal_eval env arguments) ;;
       tool_call <- session_request "call_tool"
                      (CallTool tool_name tool_args)
                      (call_tool env tool_name tool_args) ;;
       block <- getitem0 (CallToolResult.content tool_call) ;;
       block_text block
   | OutputMessage content =>
       part <- getitem0 content ;;
       part_text part
   | OtherItem type =>
       if (type =? "function_call") || (type =? "message") then
         raise (Exn AttributeError "output item lacks the fields of its type")
       else raise unbound_final_message
   | FalsyItem => ret "No response generated."
   end)
    {| trace := asked; exit_stack := exit_stack st; session := true |}.
Proof.
  intro Hmodel. unfold process_query.
  unfold bind at 1. unfold session_request at 1. rewrite connected.
  unfold ask at 1. rewrite listed. cbn [fst snd].
  unfold bind at 1. unfold ask at 1. cbn [trace].
  fold request. rewrite Hmodel. rewrite connected. reflexivity.
Qed.

(** A function call with arguments that evaluate is dispatched to the
    session as it is. *)
Lemma process_query_dispatch
    (tool_name arguments : string) (more : list OutputItem)
    (tool_args : pyvalue) :
  responses_create env request (EvRequest ListTools :: trace st)
    = Ok {| Response.output := FunctionCall tool_name arguments :: more |} ->
  literal_eval env arguments = Ok tool_args ->
  process_query env query st =
  (tool_call <- lift (call_tool env tool_name tool_args asked) ;;
   block <- getitem0 (CallToolResult.content tool_call) ;;
   block_text block)
    {| trace := EvRequest (CallTool tool_name tool_args) :: asked;
       exit_stack := exit_stack st; session := true |}.
Proof.
  intros Hmodel Hargs. rewrite (process_query_model Hmodel).
  run. rewrite Hargs. cbn. reflexivity.
Qed.

End Turn.

(** C6: when the model asks for a function call and the tool result is
    not an error and holds one text block, the turn has called that
    tool on the session, with the arguments the model gave, and its
    final text is exactly the text of the block: "Report A" when the
    block says "Report A". *)
Theorem report_round_trip
    (env : Env) (query : string) (st : State) (tools : list Tool.t)
    (tool_name arguments : string) (more : list OutputItem)
    (tool_args : pyvalue) (text : string) :
  let request := model_request query tools in
  let asked := EvModel request :: EvRequest ListTools :: trace st in
  session st = true ->
  list_tools env (trace st) = Ok tools ->
  responses_create env request (EvRequest ListTools :: trace st)
    = Ok {| Response.output := FunctionCall tool_name arguments :: more |} ->
  literal_eval env arguments = Ok tool_args ->
  call_tool env tool_name tool_args asked
    = Ok {| CallToolResult.content := [TextContent text];
            CallToolResult.isError := false |} ->
  process_query env query st
  = (Ok text,
     {| trace := EvRequest (CallTool tool_name tool_args) :: asked;
        exit_stack := exit_stack st;
        session := true |}).
Proof.
  intros request asked Hs Hl Hm Ha Hc.
  rewrite (@process_query_dispatch env query st Hs tools Hl _ _ _ _ Hm Ha).
  run. fold request. fold asked. rewrite Hc. reflexivity.
Qed.

Lemma report_round_trip_witness :
  let env :=
    Sample.world Sample.catalog [FunctionCall "search_by_place" "{}"]
      (Sample.report "Report A" false) in
  let st := Sample.connected env in
  process_query env "Any earthquakes?" st
  = (Ok "Report A",
     {| trace :=
          EvRequest (CallTool "search_by_place" (PyDict []))
            :: EvModel (model_request "Any earthquakes?" Sample.catalog)
            :: EvRequest ListTools :: trace st;
        exit_stack := exit_stack st;
        session := true |}).
Proof.
  intros env st.
  apply (@report_round_trip env "Any earthquakes?" st
           Sample.catalog "search_by_place" "{}" [] (PyDict []) "Report A");
    reflexivity.
Defined.

(** C4, as the code has it: the [isError] flag of a tool result is never
    read.  Whatever its value, a result whose first content block is text
    ends the turn with that text as the final answer; no error is raised. *)
Theorem error_flag_is_ignored
    (env : Env) (query : string) (st : State) (tools : list Tool.t)
    (tool_name arguments : string) (more : list OutputItem)
    (tool_args : pyvalue)
    (text : string) (blocks : list ContentBlock) (failed : bool) :
  let request := model_request query tools in
  session st = true ->
  list_tools env (trace st) = Ok tools ->
  responses_create env request (EvRequest ListTools :: trace st)
    = Ok {| Response.output := FunctionCall tool_name arguments :: more |} ->
  literal_eval env arguments = Ok tool_args ->
  call_tool env tool_name tool_args
    (EvModel request :: EvRequest ListTools :: trace st)
    = Ok {| CallToolResult.content := TextContent text :: blocks;
            CallToolResult.isError := failed |} ->
  fst (process_query env query st) = Ok text.
Proof.
  intros request Hs Hl Hm Ha Hc.
  rewrite (@process_query_dispatch env query st Hs tools Hl _ _ _ _ Hm Ha).
  run. fold request. rewrite Hc. reflexivity.
Qed.

Lemma error_flag_is_ignored_witness :
  let env :=
    Sample.world Sample.catalog [FunctionCall "search_by_place" "{}"]
      (Sample.report "USGS request failed" true) in
  fst (process_query env "Any earthquakes?" (Sample.connected env))
    = Ok "USGS request failed".
Proof.
  intro env.
  apply (@error_flag_is_ignored env "Any earthquakes?" (Sample.connected env)
           Sample.catalog "search_by_place" "{}" [] (PyDict [])
           "USGS request failed" [] true);
    reflexivity.
Defined.

(** C4 as stated fails: the hosting process reports [isError = true], yet
    the turn returns the first text block as its final answer. *)
Lemma error_result_not_raised :
  let reply := Sample.report "USGS request failed" true in
  let env :=
    Sample.world Sample.catalog [FunctionCall "search_by_place" "{}"] reply in
  CallToolResult.isError reply = true /\
  fst (process_query env "Any earthquakes?" (Sample.connected env))
    = Ok "USGS request failed".
Proof. split; reflexivity. Qed.

(** C3, as the code has it: the tool name the model asks for is passed to
    the session's [call_tool] as it is, whether the catalog listed in the
    same turn holds it or not.  The turn issues that one request, and its
    outcome is the session's. *)
Theorem tool_name_is_forwarded
    (env : Env) (query : string) (st : State) (tools : list Tool.t)
    (tool_name arguments : string) (more : list OutputItem)
    (tool_args : pyvalue) :
  let request := model_request query tools in
  let asked := EvModel request :: EvRequest ListTools :: trace st in
  session st = true ->
  list_tools env (trace st) = Ok tools ->
  responses_create env request (EvRequest ListTools :: trace st)
    = Ok {| Response.output := FunctionCall tool_name arguments :: more |} ->
  literal_eval env arguments = Ok tool_args ->
  trace (snd (process_query env query st))
    = EvRequest (CallTool tool_name tool_args) :: asked /\
  (forall e,
     call_tool env tool_name tool_args asked = Raise e ->
     fst (process_query env query st) = Raise e) /\
  (forall text blocks failed,
     call_tool env tool_name tool_args asked
       = Ok {| CallToolResult.content := TextContent text :: blocks;
               CallToolResult.isError := failed |} ->
     fst (process_query env query st) = Ok text).
Proof.
  intros request asked Hs Hl Hm Ha.
  rewrite (@process_query_dispatch env query st Hs tools Hl _ _ _ _ Hm Ha).
  fold request. fold asked.
  destruct (call_tool env tool_name tool_args asked) as [res|e] eqn:Hc.
  - run.
    destruct res as [[|[text|ty] blocks] failed]; cbn;
      repeat split; try discriminate.
    intros text' blocks' failed' E. injection E as <- _ _. reflexivity.
  - run. repeat split; try discriminate.
    intros e' E. injection E as <-. reflexivity.
Qed.

Lemma tool_name_is_forwarded_witness :
  let env :=
    Sample.world Sample.catalog [FunctionCall "search_by_plaice" "{}"]
      (Sample.report "Unknown tool: search_by_plaice" true) in
  let st := Sample.connected env in
  trace (snd (process_query env "Any earthquakes?" st))
    = EvRequest (CallTool "search_by_plaice" (PyDict []))
        :: EvModel (model_request "Any earthquakes?" Sample.catalog)
        :: EvRequest ListTools :: trace st.
Proof.
  intros env st.
  apply (@tool_name_is_forwarded env "Any earthquakes?" st
           Sample.catalog "search_by_plaice" "{}" [] (PyDict []));
    reflexivity.
Defined.

(** C3 as stated fails: the name is in no catalog entry, yet a
    [call_tool] request for it is issued on the session and the turn ends
    without any error being raised. *)
Lemma unknown_tool_reaches_session :
  let env :=
    Sample.world Sample.catalog [FunctionCall "search_by_plaice" "{}"]
      (Sample.report "Unknown tool: search_by_plaice" true) in
  let st := Sample.connected env in
  ~ In "search_by_plaice" (map Tool.name Sample.catalog) /\
  count is_call_tool (trace st) = 0 /\
  count is_call_tool (trace (snd (process_query env "Any earthquakes?" st)))
    = 1 /\
  fst (process_query env "Any earthquakes?" st)
    = Ok "Unknown tool: search_by_plaice".
Proof.
  cbn zeta. repeat split; try reflexivity.
  cbn. intros [H|[H|[]]]; discriminate H.
Qed.

(** C2, as the code has it: with an empty output list the turn has
    already queried the session once, for the catalog, before the model
    was called; it issues no [call_tool] and no further request. *)
Theorem empty_output_turn
    (env : Env) (query : string) (st : State) (tools : list Tool.t) :
  let request := model_request query tools in
  let st' := snd (process_query env query st) in
  session st = true ->
  list_tools env (trace st) = Ok tools ->
  responses_create env request (EvRequest ListTools :: trace st)
    = Ok {| Response.output := [] |} ->
  trace st' = EvModel request :: EvRequest ListTools :: trace st /\
  count is_call_tool (trace st') = count is_call_tool (trace st) /\
  count is_request (trace st') = S (count is_request (trace st)).
Proof.
  intros request st' Hs Hl Hm. subst st'.
  rewrite (@process_query_model env query st Hs tools Hl _ Hm).
  cbn. auto.
Qed.

Lemma empty_output_turn_witness :
  let env := Sample.world Sample.catalog [] (Sample.report "" false) in
  let st := Sample.connected env in
  let st' := snd (process_query env "Any earthquakes?" st) in
  trace st'
    = EvModel (model_request "Any earthquakes?" Sample.catalog)
        :: EvRequest ListTools :: trace st /\
  count is_call_tool (trace st') = count is_call_tool (trace st) /\
  count is_request (trace st') = S (count is_request (trace st)).
Proof.
  intros env st.
  apply (@empty_output_turn env "Any earthquakes?" st Sample.catalog);
    reflexivity.
Defined.

(** C2 as stated fails on both counts: with an empty output list the
    turn raises [IndexError] instead of returning the fallback text, and
    a session request has been issued. *)
Lemma empty_output_no_fallback :
  let env := Sample.world Sample.catalog [] (Sample.report "" false) in
  let st := Sample.connected env in
  let (r, st') := process_query env "Any earthquakes?" st in
  r = Raise (Exn IndexError "list index out of range") /\
  r <> Ok "No response generated." /\
  count is_request (trace st') = S (count is_request (trace st)).
Proof. cbn. repeat split. discriminate. Qed.

(** ** Connecting *)

(** Where [connect_to_server] can leave a fresh client. *)
Lemma connect_shape (env : Env) (path : string) :
  let (r, st) := connect_to_server env path init in
  exited (trace st) = [] /\
  count is_aclose (trace st) = 0 /\
  entered (trace st) = exit_stack st /\
  (exit_stack st = [] \/ exit_stack st = [Transport] \/
   exit_stack st = [Session; Transport]) /\
  (1 <= count is_initialize (trace st) ->
   exit_stack st = [Session; Transport]) /\
  (r = Ok tt ->
   session st = true /\ count is_list_tools (trace st) = 1 /\
   exit_stack st = [Session; Transport]).
Proof.
  unfold connect_to_server.
  destruct (negb _).
  - cbn. repeat split; auto; try discriminate. intro H; inversion H.
  - run. repeat (step; cbn);
      repeat split; auto; try discriminate;
      try (intro H; now inversion H).
Qed.

(** C8, as the code has it: the catalog is not cached.  Connecting
    issues one [list_tools] request, and every turn on the open session
    issues one more, as the first thing it does: whatever else the turn
    sends, the model call included, comes after it. *)
Theorem catalog_is_listed_every_turn (env : Env) :
  (forall path st,
     connect_to_server env path init = (Ok tt, st) ->
     count is_list_tools (trace st) = 1) /\
  (forall query st,
     session st = true ->
     exists evs,
       trace (snd (process_query env query st))
         = evs ++ EvRequest ListTools :: trace st /\
       count is_list_tools evs = 0 /\
       count is_list_tools (trace (snd (process_query env query st)))
         = S (count is_list_tools (trace st))).
Proof.
  split.
  - intros path st H. generalize (connect_shape env path). rewrite H.
    intros (_ & _ & _ & _ & _ & Hok). now destruct (Hok eq_refl) as (_ & ? & _).
  - intros query st Hs.
    destruct (@process_query_lists_first env query st Hs) as [evs (Ht & Hc & _)].
    exists evs. split; [exact Ht|]. split; [exact Hc|].
    rewrite Ht, count_app, Hc. reflexivity.
Qed.

Lemma catalog_is_listed_every_turn_witness :
  let env := Sample.world Sample.catalog [OutputMessage [OutputText "Hi"]]
               (Sample.report "" false) in
  let st := Sample.connected env in
  count is_list_tools (trace st) = 1 /\
  exists evs,
    trace (snd (process_query env "Hello" st))
      = evs ++ EvRequest ListTools :: trace st /\
    count is_list_tools evs = 0 /\
    count is_list_tools (trace (snd (process_query env "Hello" st)))
      = S (count is_list_tools (trace st)).
Proof.
  intros env st.
  destruct (catalog_is_listed_every_turn env) as [Hconnect Hturn].
  split.
  - apply (Hconnect "server.py" st). reflexivity.
  - apply (Hturn "Hello" st). reflexivity.
Defined.

(** C8 as stated fails: in a run with one query, the turn after the
    discovery at connect time sends a second [list_tools] request. *)
Lemma catalog_listed_again :
  let env := Sample.world Sample.catalog [OutputMessage [OutputText "Hi"]]
               (Sample.report "" false) in
  match main env ["client.py"; "server.py"] [Ok "Hello"; Ok "quit"] with
  | Some (_, st) =>
      count is_list_tools (trace (Sample.connected env)) = 1 /\
      count is_list_tools (trace st) = 2
  | None => False
  end.
Proof. vm_compute. split; reflexivity. Qed.

(** ** One iteration of the loop *)

(** A query whose [process_query] raises an [Exception] ends its turn on
    the Error line. *)
Lemma turn_failure (env : Env) (raw : string) (st st2 : State) (e : exn) :
  is_quit (Ok raw) = false ->
  process_query env (PyStr.strip raw) (after (EvInput prompt) st)
    = (Raise e, st2) ->
  is_Exception e = true ->
  turn env (Ok raw) st
    = (Ok (Failed (error_line e)), after (EvPrint (error_line e)) st2).
Proof.
  intros Hq Hp He. unfold turn, try_except.
  unfold bind at 1. unfold ask at 1. cbn [is_quit] in Hq. rewrite Hq.
  unfold bind at 1. unfold after, log in Hp. cbn [snd] in Hp. rewrite Hp.
  rewrite He. reflexivity.
Qed.

(** After a turn that failed, the loop goes on with the next input. *)
Lemma loop_after_failure (env : Env) (line : Result string)
    (rest : list (Result string)) (st st' : State) (message : string) :
  turn env line st = (Ok (Failed message), st') ->
  loop env (line :: rest) st = loop env rest st'.
Proof. intro H. cbn [loop]. rewrite H. reflexivity. Qed.

Lemma error_line_not_empty (e : exn) : error_line e <> "".
Proof. unfold error_line, PyStr.nl. cbn. discriminate. Qed.

(** A quit line ends the loop where it is read. *)
Lemma loop_quit (env : Env) (raw : string) (rest : list (Result string))
    (st : State) :
  is_quit (Ok raw) = true ->
  loop env (Ok raw :: rest) st = Some (Ok tt, after (EvInput prompt) st).
Proof.
  intro Hq. cbn [loop]. unfold turn, try_except.
  unfold bind at 1. unfold ask at 1. cbn [is_quit] in Hq. rewrite Hq.
  reflexivity.
Qed.

(** On an open session, a line that is no quit line is read and then
    sent to the session. *)
Lemma turn_reaches_session (env : Env) (raw : string) (st : State) :
  session st = true ->
  is_quit (Ok raw) = false ->
  exists evs,
    trace (snd (turn env (Ok raw) st))
    = evs ++ EvRequest ListTools :: EvInput prompt :: trace st.
Proof.
  intros Hs Hq. unfold turn, try_except.
  unfold bind at 1. unfold ask at 1. cbn [is_quit] in Hq. rewrite Hq.
  unfold bind at 1.
  match goal with
  | |- context [process_query env ?q ?s1] =>
      destruct (@process_query_lists_first env q s1 Hs)
        as [evs (Ht & _)];
      destruct (process_query env q s1) as [[response|e] s2]
  end; cbn [snd trace] in Ht.
  - run. exists (EvPrint (chatbot_line response) :: evs).
    rewrite Ht. reflexivity.
  - destruct (is_Exception e).
    + run. exists (EvPrint (error_line e) :: evs). rewrite Ht. reflexivity.
    + exists evs. exact Ht.
Qed.

(** After a failed turn that leaves the session set, the loop takes the
    next input. *)
Lemma failed_turn_goes_on (env : Env) (line : Result string)
    (st st' : State) (message : string) :
  turn env line st = (Ok (Failed message), st') ->
  session st' = true ->
  goes_on env line st st'.
Proof.
  intros Ht Hs. repeat split.
  - intros next rest. cbn [loop]. rewrite Ht. reflexivity.
  - intros raw rest Hq.
    rewrite (@loop_after_failure env line (Ok raw :: rest) st st' message Ht).
    apply loop_quit, Hq.
  - intros raw Hq. apply turn_reaches_session; assumption.
Qed.

(** C5: when the first output item is a function call whose arguments
    [ast.literal_eval] rejects, the turn ends as [Failed] with the
    non-empty Error line printed; nothing is raised out of the turn, no
    tool is called, the exit stack and the session are untouched, and
    the loop takes the next input: it reads the next line, and a query
    in it is sent to the session, which is still open. *)
Theorem unparseable_arguments_fail_the_turn
    (env : Env) (raw : string) (st : State) (tools : list Tool.t)
    (tool_name arguments : string) (more : list OutputItem) (e : exn)
    (rest : list (Result string)) :
  let query := PyStr.strip raw in
  let st1 := after (EvInput prompt) st in
  let request := model_request query tools in
  session st = true ->
  is_quit (Ok raw) = false ->
  list_tools env (trace st1) = Ok tools ->
  responses_create env request (EvRequest ListTools :: trace st1)
    = Ok {| Response.output := FunctionCall tool_name arguments :: more |} ->
  literal_eval env arguments = Raise e ->
  is_Exception e = true ->
  exists st',
    turn env (Ok raw) st = (Ok (Failed (error_line e)), st') /\
    error_line e <> "" /\
    trace st'
      = EvPrint (error_line e) :: EvModel request :: EvRequest ListTools
          :: EvInput prompt :: trace st /\
    exit_stack st' = exit_stack st /\
    session st' = true /\
    loop env (Ok raw :: rest) st = loop env rest st' /\
    goes_on env (Ok raw) st st'.
Proof.
  intros query st1 request Hs Hq Hl Hm Ha He.
  assert (Hs1 : session st1 = true) by exact Hs.
  pose proof (@process_query_model env query st1 Hs1 tools Hl _ Hm) as Hp.
  cbv beta iota delta [bind getitem0 ret lift raise] in Hp.
  cbn [Response.output] in Hp. rewrite Ha in Hp.
  pose proof (@turn_failure env raw st _ e Hq Hp He) as Ht.
  eexists. split; [exact Ht|].
  split; [apply error_line_not_empty|].
  split; [reflexivity|]. split; [reflexivity|]. split; [reflexivity|].
  split.
  - apply (@loop_after_failure env _ rest _ _ _ Ht).
  - apply (@failed_turn_goes_on env (Ok raw) st _ _ Ht). reflexivity.
Qed.

Lemma unparseable_arguments_fail_the_turn_witness :
  let env :=
    Sample.world Sample.catalog
      [FunctionCall "search_by_place" "{location: Tokyo"]
      (Sample.report "" false) in
  let st := Sample.connected env in
  let e := Exn SyntaxError "invalid syntax" in
  exists st',
    turn env (Ok "Any earthquakes near Tokyo?") st
      = (Ok (Failed (error_line e)), st') /\
    error_line e <> "" /\
    trace st'
      = EvPrint (error_line e)
          :: EvModel (model_request "Any earthquakes near Tokyo?"
                        Sample.catalog)
          :: EvRequest ListTools :: EvInput prompt :: trace st /\
    exit_stack st' = exit_stack st /\
    session st' = true /\
    loop env [Ok "Any earthquakes near Tokyo?"; Ok "quit"] st
      = loop env [Ok "quit"] st' /\
    goes_on env (Ok "Any earthquakes near Tokyo?") st st'.
Proof.
  intros env st e.
  apply (@unparseable_arguments_fail_the_turn env
           "Any earthquakes near Tokyo?" st Sample.catalog
           "search_by_place" "{location: Tokyo" [] e [Ok "quit"]);
    reflexivity.
Defined.

(** C10: when the first output item is neither a function call nor a
    message, [process_query] returns no text: reading [final_message]
    raises [UnboundLocalError].  The handler of the loop prints it as an
    Error line and the loop takes the next input: it reads the next
    line, and a query in it is sent to the session. *)
Theorem other_item_leaves_final_message_unbound
    (env : Env) (raw : string) (st : State) (tools : list Tool.t)
    (type : string) (more : list OutputItem)
    (rest : list (Result string)) :
  let query := PyStr.strip raw in
  let st1 := after (EvInput prompt) st in
  let request := model_request query tools in
  session st = true ->
  is_quit (Ok raw) = false ->
  list_tools env (trace st1) = Ok tools ->
  responses_create env request (EvRequest ListTools :: trace st1)
    = Ok {| Response.output := OtherItem type :: more |} ->
  type <> "function_call" ->
  type <> "message" ->
  fst (process_query env query st1) = Raise unbound_final_message /\
  exn_cls unbound_final_message = UnboundLocalError /\
  exists st',
    turn env (Ok raw) st
      = (Ok (Failed (error_line unbound_final_message)), st') /\
    trace st'
      = EvPrint (error_line unbound_final_message) :: EvModel request
          :: EvRequest ListTools :: EvInput prompt :: trace st /\
    loop env (Ok raw :: rest) st = loop env rest st' /\
    goes_on env (Ok raw) st st'.
Proof.
  intros query st1 request Hs Hq Hl Hm Hf Hmsg.
  assert (Hs1 : session st1 = true) by exact Hs.
  pose proof (@process_query_model env query st1 Hs1 tools Hl _ Hm) as Hp.
  cbv beta iota delta [bind getitem0 ret lift raise] in Hp.
  cbn [Response.output] in Hp.
  apply String.eqb_neq in Hf, Hmsg. rewrite Hf, Hmsg in Hp. cbn [orb] in Hp.
  split; [rewrite Hp; reflexivity|]. split; [reflexivity|].
  pose proof (@turn_failure env raw st _ _ Hq Hp eq_refl) as Ht.
  eexists. split; [exact Ht|]. split; [reflexivity|].
  split.
  - apply (@loop_after_failure env _ rest _ _ _ Ht).
  - apply (@failed_turn_goes_on env (Ok raw) st _ _ Ht). reflexivity.
Qed.

Lemma other_item_leaves_final_message_unbound_witness :
  let env :=
    Sample.world Sample.catalog [OtherItem "reasoning"]
      (Sample.report "" false) in
  let st := Sample.connected env in
  fst (process_query env "Hello" (after (EvInput prompt) st))
    = Raise unbound_final_message /\
  exn_cls unbound_final_message = UnboundLocalError /\
  exists st',
    turn env (Ok " Hello ") st
      = (Ok (Failed (error_line unbound_final_message)), st') /\
    trace st'
      = EvPrint (error_line unbound_final_message)
          :: EvModel (model_request "Hello" Sample.catalog)
          :: EvRequest ListTools :: EvInput prompt :: trace st /\
    loop env [Ok " Hello "; Ok "quit"] st = loop env [Ok "quit"] st' /\
    goes_on env (Ok " Hello ") st st'.
Proof.
  intros env st.
  apply (@other_item_leaves_final_message_unbound env " Hello " st
           Sample.catalog "reasoning" [] [Ok "quit"]);
    try reflexivity; discriminate.
Defined.

(** ** The whole run *)

Section Run.

Variable env : Env.

Lemma process_query_emits (query : string) :
  emits chat_event (process_query env query).
Proof.
  unfold process_query. emits_auto.
Qed.

Lemma turn_emits (line : Result string) : emits chat_event (turn env line).
Proof.
  unfold turn, print. emits_auto.
Qed.

(** The loop adds loop events only and leaves the exit stack alone. *)
Lemma loop_emits (stdin : list (Result string)) :
  forall st r st',
    loop env stdin st = Some (r, st') ->
    exists evs,
      trace st' = evs ++ trace st /\
      forallb chat_event evs = true /\
      exit_stack st' = exit_stack st.
Proof.
  induction stdin as [|line rest IH]; intros st r st' H; cbn [loop] in H.
  - discriminate H.
  - destruct (turn_emits line st) as [evs (Ht & Hp & Hx & _)].
    destruct (turn env line st) as [[[| |]|e] st1]; cbn [snd] in *.
    + injection H as <- <-. exists evs. auto.
    + destruct (IH _ _ _ H) as [evs' (Ht' & Hp' & Hx')].
      exists (evs' ++ evs).
      rewrite Ht', Ht, app_assoc, forallb_app, Hp, Hp'.
      repeat split; congruence.
    + destruct (IH _ _ _ H) as [evs' (Ht' & Hp' & Hx')].
      exists (evs' ++ evs).
      rewrite Ht', Ht, app_assoc, forallb_app, Hp, Hp'.
      repeat split; congruence.
    + injection H as <- <-. exists evs. auto.
Qed.

Lemma chat_loop_emits (stdin : list (Result string)) (st : State) r st' :
  chat_loop env stdin st = Some (r, st') ->
  exists evs,
    trace st' = evs ++ trace st /\
    forallb chat_event evs = true /\
    exit_stack st' = exit_stack st.
Proof.
  unfold chat_loop. run. intro H.
  destruct (loop_emits _ _ H) as [evs (Ht & Hp & Hx)].
  exists (evs ++ [EvPrint "Type your queries or 'quit' to exit.";
                  EvPrint (PyStr.nl ++ "MCP Client Started!")]).
  rewrite Ht, forallb_app, Hp, <- app_assoc. cbn in *. auto.
Qed.

(** A quit line ends the loop, if nothing ended it before. *)
Lemma loop_ends (stdin : list (Result string)) :
  Exists (fun line => is_quit line = true) stdin ->
  forall st, exists r st', loop env stdin st = Some (r, st').
Proof.
  induction 1 as [line rest Hq|line rest _ IH]; intro st; cbn [loop].
  - destruct line as [raw|e]; [|discriminate Hq]. cbn [is_quit] in Hq.
    unfold turn, try_except. unfold bind at 1. unfold ask at 1.
    rewrite Hq. cbn. eauto.
  - destruct (turn env line st) as [[[| |]|e] st1]; eauto.
Qed.

(** [aclose] calls the exit of every context on the stack, top first. *)
Lemma run_exits_trace (stack : list Resource) :
  forall pending tr,
    snd (run_exits env stack pending tr) = rev (map EvExit stack) ++ tr.
Proof.
  induction stack as [|r stack IH]; intros pending tr; cbn.
  - reflexivity.
  - rewrite IH, <- app_assoc. reflexivity.
Qed.

Lemma cleanup_shape (st : State) :
  trace (snd (cleanup env st))
    = rev (map EvExit (exit_stack st)) ++ EvAclose :: trace st /\
  exit_stack (snd (cleanup env st)) = [].
Proof.
  unfold cleanup, aclose.
  pose proof (run_exits_trace (exit_stack st) None (EvAclose :: trace st))
    as H.
  destruct (run_exits env (exit_stack st) None (EvAclose :: trace st))
    as [pending tr]. cbn in *. auto.
Qed.

End Run.

(** *** Reading a trace *)

Lemma entered_app (a b : list Event) : entered (a ++ b) = entered a ++ entered b.
Proof.
  induction a as [|[] a IH]; cbn; rewrite ?IH; reflexivity.
Qed.

Lemma exited_app (a b : list Event) : exited (a ++ b) = exited a ++ exited b.
Proof.
  induction a as [|[] a IH]; cbn; rewrite ?IH; reflexivity.
Qed.

Lemma entered_exits (stack : list Resource) : entered (map EvExit stack) = [].
Proof. induction stack; cbn; auto. Qed.

Lemma exited_exits (stack : list Resource) : exited (map EvExit stack) = stack.
Proof. induction stack; cbn; congruence. Qed.

Lemma chat_events_silent (evs : list Event) :
  forallb chat_event evs = true ->
  entered evs = [] /\ exited evs = [] /\
  count is_aclose evs = 0 /\ count is_initialize evs = 0.
Proof.
  induction evs as [|ev evs IH]; cbn; [auto|].
  intro H. apply andb_true_iff in H. destruct H as [Hev Hevs].
  destruct (IH Hevs) as (He & Hx & Ha & Hi). unfold count in *.
  destruct ev as [| | |[]| | | | |]; try discriminate Hev; cbn; auto.
Qed.

Lemma exits_silent (stack : list Resource) :
  count is_aclose (map EvExit stack) = 0 /\
  count is_initialize (map EvExit stack) = 0.
Proof. unfold count. induction stack; cbn; auto. Qed.

Lemma count_rev (p : Event -> bool) (l : list Event) :
  count p (rev l) = count p l.
Proof.
  unfold count. induction l as [|x l IH]; cbn; [reflexivity|].
  rewrite filter_app, length_app, IH. cbn. destruct (p x); cbn; lia.
Qed.

Lemma count_exit_exited (r : Resource) (tr : list Event) :
  count (is_exit r) tr = on_stack r (exited tr).
Proof.
  unfold count, on_stack. induction tr as [|[] tr IH]; cbn; auto.
  destruct (Resource_eqb r r0); cbn; auto.
Qed.

Lemma count_enter_entered (r : Resource) (tr : list Event) :
  count (is_enter r) tr = on_stack r (entered tr).
Proof.
  unfold count, on_stack. induction tr as [|[] tr IH]; cbn; auto.
  destruct (Resource_eqb r r0); cbn; auto.
Qed.

Lemma on_stack_rev (r : Resource) (stack : list Resource) :
  on_stack r (rev stack) = on_stack r stack.
Proof.
  unfold on_stack. induction stack as [|x l IH]; cbn; [reflexivity|].
  rewrite filter_app, length_app, IH. cbn.
  destruct (Resource_eqb r x); cbn; lia.
Qed.

(** A run that ends is: connecting, loop events, then [aclose] and the
    exits of what connecting left on the stack. *)
Lemma main_trace (env : Env) (argv : list string)
    (stdin : list (Result string)) (r : Result unit) (st : State) :
  2 <= List.length argv ->
  main env argv stdin = Some (r, st) ->
  let st1 := snd (connect_to_server env (nth 1 argv "") init) in
  exists evs,
    forallb chat_event evs = true /\
    trace st
      = rev (map EvExit (exit_stack st1)) ++ EvAclose :: evs ++ trace st1 /\
    exit_stack st = [].
Proof.
  intros Hargv H st1. unfold main in H.
  apply Nat.ltb_ge in Hargv. rewrite Hargv in H.
  assert (Hbody : exists rb st2 evs,
             match connect_to_server env (nth 1 argv "") init with
             | (Ok _, st0) => chat_loop env stdin st0
             | (Raise e, st0) => Some (Raise e, st0)
             end = Some (rb, st2) /\
             forallb chat_event evs = true /\
             trace st2 = evs ++ trace st1 /\
             exit_stack st2 = exit_stack st1).
  { subst st1.
    destruct (connect_to_server env (nth 1 argv "") init) as [[[]|e] st0];
      cbn [snd] in *.
    - destruct (chat_loop env stdin st0) as [[rb st2]|] eqn:Hloop;
        [|discriminate H].
      pose proof Hloop as Hemits. apply chat_loop_emits in Hemits.
      destruct Hemits as [evs (Ht & Hp & Hx)].
      exists rb, st2, evs. auto.
    - exists (Raise e), st0, []. auto. }
  destruct Hbody as (rb & st2 & evs & Hb & Hp & Ht & Hx).
  rewrite Hb in H. unfold finally_cleanup in H.
  destruct (cleanup_shape env st2) as [Hc Hs].
  exists evs. split; [exact Hp|].
  destruct (cleanup env st2) as [[[]|e] st3]; cbn [snd] in *;
    injection H as <- <-; rewrite Hc, Ht, Hx; auto.
Qed.

(** Whether connecting a fresh client stacks the Transport: not when
    the path is refused or the process does not start, once when it
    starts. *)
Lemma connect_transport (env : Env) (path : string) :
  let command := if PyStr.endswith path ".py" then "python" else "node" in
  let started := [EvSpawn command [path]] in
  let st1 := snd (connect_to_server env path init) in
  (PyStr.endswith path ".py" || PyStr.endswith path ".js" = false ->
   exit_stack st1 = []) /\
  (forall e,
     stdio_client env command [path] started = Raise e ->
     exit_stack st1 = []) /\
  (PyStr.endswith path ".py" || PyStr.endswith path ".js" = true ->
   stdio_client env command [path] started = Ok tt ->
   on_stack Transport (exit_stack st1) = 1).
Proof.
  intros command started st1. subst command started st1.
  unfold connect_to_server.
  destruct (PyStr.endswith path ".py" || PyStr.endswith path ".js");
    cbn [negb].
  - split; [discriminate|]. split.
    + intros e H0. run. rewrite H0. reflexivity.
    + intros _ H0. run. rewrite H0. cbn.
      repeat (step; cbn); reflexivity.
  - split; [reflexivity|]. split; [reflexivity|discriminate].
Qed.

(** C1, as the code has it.  Without a script argument the run prints
    the usage line and exits with status 1: there is no client and
    nothing is released.  With one, a run ends when connecting fails,
    and then a failure leaves [main], or when the input holds a quit
    line.  A run that ends is connecting, then the events of the loop,
    then [aclose], then the exits of the contexts that were entered, in
    reverse order of entry, and nothing else: [aclose] is executed
    exactly once, after everything but the exits it runs, and every
    context entered on the exit stack is exited exactly once.  So the
    Transport is closed exactly once when its process started, in
    particular when the handshake fails after the spawn, and zero times
    when the path is refused or the process does not start. *)
Theorem release_runs_once (env : Env) (argv : list string)
    (stdin : list (Result string)) :
  let path := nth 1 argv "" in
  let command := if PyStr.endswith path ".py" then "python" else "node" in
  let started := [EvSpawn command [path]] in
  (List.length argv < 2 ->
   main env argv stdin
   = Some (Raise (Exn SystemExit "1"), after (EvPrint usage) init)) /\
  (2 <= List.length argv ->
   (Exists (fun line => is_quit line = true) stdin ->
    exists r st, main env argv stdin = Some (r, st)) /\
   (forall e st1,
      connect_to_server env path init = (Raise e, st1) ->
      exists e' st,
        main env argv stdin = Some (Raise e', st) /\
        (fst (cleanup env st1) = Ok tt -> e' = e)) /\
   (forall r st,
      main env argv stdin = Some (r, st) ->
      (exists evs body,
         forallb chat_event evs = true /\
         body = evs ++ trace (snd (connect_to_server env path init)) /\
         trace st = rev (map EvExit (entered body)) ++ EvAclose :: body /\
         count is_aclose body = 0 /\
         exited body = []) /\
      count is_aclose (trace st) = 1 /\
      exit_stack st = [] /\
      exited (trace st) = rev (entered (trace st)) /\
      (entered (trace st) = [] \/ entered (trace st) = [Transport] \/
       entered (trace st) = [Session; Transport]) /\
      (forall res,
         count (is_exit res) (trace st) = count (is_enter res) (trace st)) /\
      (1 <= count is_initialize (trace st) ->
       count (is_exit Transport) (trace st) = 1) /\
      (PyStr.endswith path ".py" || PyStr.endswith path ".js" = false ->
       count (is_exit Transport) (trace st) = 0) /\
      (forall e,
         stdio_client env command [path] started = Raise e ->
         count (is_exit Transport) (trace st) = 0) /\
      (PyStr.endswith path ".py" || PyStr.endswith path ".js" = true ->
       stdio_client env command [path] started = Ok tt ->
       count (is_exit Transport) (trace st) = 1))).
Proof.
  intros path command started. split.
  { intro Hargv. unfold main. apply Nat.ltb_lt in Hargv. rewrite Hargv.
    reflexivity. }
  intro Hargv. split; [|split].
  - intro Hquit. unfold main.
    pose proof Hargv as Hlt. apply Nat.ltb_ge in Hlt. rewrite Hlt.
    fold path.
    destruct (connect_to_server env path init) as [[[]|e] st0].
    + unfold chat_loop. run.
      match goal with
      | |- context [loop env stdin ?s] =>
          destruct (@loop_ends env stdin Hquit s) as (r & st' & Hl);
          rewrite Hl
      end.
      unfold finally_cleanup.
      destruct (cleanup env st') as [[[]|e] st3]; eauto.
    + unfold finally_cleanup.
      destruct (cleanup env st0) as [[[]|e'] st3]; eauto.
  - intros e st1 Hc. unfold main.
    pose proof Hargv as Hlt. apply Nat.ltb_ge in Hlt. rewrite Hlt.
    fold path. rewrite Hc.
    unfold finally_cleanup.
    destruct (cleanup env st1) as [[[]|e'] st3]; cbn [fst].
    + exists e, st3. split; reflexivity.
    + exists e', st3. split; [reflexivity|discriminate].
  - intros r st Hmain.
    pose proof Hmain as Hrun. apply main_trace in Hrun; [|exact Hargv].
    fold path in Hrun.
    destruct Hrun as [evs (Hp & Ht & Hx)].
    pose proof (connect_shape env path) as Hconn.
    pose proof (connect_transport env path) as Htr.
    cbv zeta in Htr. fold command started in Htr.
    destruct (connect_to_server env path init) as [r1 st1].
    cbn [snd] in Ht, Htr |- *.
    destruct Hconn as (Hex & Hac & Hen & Hshape & Hinit & _).
    destruct Htr as (Hrefused & Hnostart & Hstart).
    destruct (chat_events_silent evs Hp) as (Ee & Ex & Ea & Ei).
    assert (Hbody : entered (evs ++ trace st1) = exit_stack st1).
    { rewrite entered_app, Ee, Hen. reflexivity. }
    assert (Hentered : entered (trace st) = exit_stack st1).
    { rewrite Ht, entered_app. cbn [entered].
      rewrite entered_app, Ee, Hen.
      rewrite <- map_rev, entered_exits. reflexivity. }
    assert (Hexited : exited (trace st) = rev (exit_stack st1)).
    { rewrite Ht, exited_app. cbn [exited].
      rewrite exited_app, Ex, Hex.
      rewrite <- map_rev, exited_exits. cbn. apply app_nil_r. }
    assert (Hcounts : forall res,
               count (is_exit res) (trace st)
               = count (is_enter res) (trace st)).
    { intro res.
      rewrite count_exit_exited, count_enter_entered, Hexited, Hentered.
      apply on_stack_rev. }
    assert (Htransport : count (is_exit Transport) (trace st)
                         = on_stack Transport (exit_stack st1)).
    { rewrite Hcounts, count_enter_entered, Hentered. reflexivity. }
    split; [|split; [|split; [|split; [|split; [|split; [|split;
      [|split; [|split]]]]]]]].
    + exists evs, (evs ++ trace st1).
      split; [exact Hp|]. split; [reflexivity|].
      split; [rewrite Hbody; exact Ht|].
      split; [rewrite count_app, Ea, Hac; reflexivity|].
      rewrite exited_app, Ex, Hex. reflexivity.
    + rewrite Ht, count_app, count_rev.
      destruct (exits_silent (exit_stack st1)) as [-> _].
      change (EvAclose :: evs ++ trace st1)
        with ([EvAclose] ++ evs ++ trace st1).
      rewrite !count_app, Ea, Hac. reflexivity.
    + exact Hx.
    + rewrite Hexited, Hentered. reflexivity.
    + rewrite Hentered. exact Hshape.
    + exact Hcounts.
    + intro Hi. rewrite Htransport.
      rewrite Hinit; [reflexivity|].
      rewrite Ht, count_app, count_rev in Hi.
      destruct (exits_silent (exit_stack st1)) as [_ E0]. rewrite E0 in Hi.
      change (EvAclose :: evs ++ trace st1)
        with ([EvAclose] ++ evs ++ trace st1) in Hi.
      rewrite !count_app, Ei in Hi. cbn in Hi. exact Hi.
    + intro Hr. rewrite Htransport, (Hrefused Hr). reflexivity.
    + intros e He. rewrite Htransport, (Hnostart e He). reflexivity.
    + intros Hok Hs. rewrite Htransport. apply Hstart; assumption.
Qed.

Lemma release_runs_once_witness :
  main Sample.no_handshake ["client.py"] []
  = Some (Raise (Exn SystemExit "1"), after (EvPrint usage) init) /\
  match main Sample.no_handshake ["client.py"; "server.py"] [] with
  | Some (r, st) =>
      r = Raise (Exn (OtherException "McpError") "Connection closed") /\
      trace st
      = [EvExit Transport; EvExit Session; EvAclose;
         EvRequest Initialize; EvEnter Session; EvEnter Transport;
         EvSpawn "python" ["server.py"]] /\
      count is_aclose (trace st) = 1 /\
      exited (trace st) = rev (entered (trace st)) /\
      count (is_exit Transport) (trace st) = 1
  | None => False
  end.
Proof.
  split.
  - apply (proj1 (@release_runs_once Sample.no_handshake ["client.py"] [])).
    apply le_n.
  - destruct (@release_runs_once Sample.no_handshake
                ["client.py"; "server.py"] []) as (_ & Hrun).
    destruct (Hrun (le_n 2)) as (_ & _ & Hend).
    destruct (main Sample.no_handshake ["client.py"; "server.py"] [])
      as [[r st]|] eqn:E.
    + destruct (Hend r st eq_refl)
        as (_ & Ha & _ & He & _ & _ & _ & _ & _ & Hs).
      vm_compute in E. injection E as <- <-.
      split; [reflexivity|]. split; [reflexivity|].
      split; [exact Ha|]. split; [exact He|].
      apply Hs; reflexivity.
    + vm_compute in E. discriminate E.
Defined.

(** C1 as stated fails.  Without a script argument the run ends before
    there is a client: [aclose] is never executed.  When the runtime
    cannot be started, [aclose] finds an empty stack: the Transport is
    closed zero times. *)
Lemma release_not_always_once :
  match main Sample.no_runtime ["client.py"] [Ok "quit"] with
  | Some (_, st) =>
      count is_aclose (trace st) = 0 /\
      count (is_exit Transport) (trace st) = 0
  | None => False
  end /\
  match main Sample.no_runtime ["client.py"; "server.py"] [Ok "quit"] with
  | Some (_, st) =>
      count is_aclose (trace st) = 1 /\
      count (is_exit Transport) (trace st) = 0
  | None => False
  end.
Proof. vm_compute. repeat split. Qed.

(** * Further properties of the client *)

(** ** Quitting *)

Lemma lstrip_cons1 (c1 : ascii) :
  PyStr.lstrip (String c1 "")
  = if PyStr.isspace c1 then "" else String c1 "".
Proof. reflexivity. Qed.

Lemma lstrip_cons2 (c1 c2 : ascii) :
  PyStr.lstrip (String c1 (String c2 ""))
  = if PyStr.isspace c1 then PyStr.lstrip (String c2 "")
    else if PyStr.isspace2 c1 c2 then ""
    else String c1 (String c2 "").
Proof. reflexivity. Qed.

Lemma lstrip_cons3 (c1 c2 c3 : ascii) (s : string) :
  PyStr.lstrip (String c1 (String c2 (String c3 s)))
  = if PyStr.isspace c1 then PyStr.lstrip (String c2 (String c3 s))
    else if PyStr.isspace2 c1 c2 then PyStr.lstrip (String c3 s)
    else if PyStr.isspace3 c1 c2 c3 then PyStr.lstrip s
    else String c1 (String c2 (String c3 s)).
Proof. reflexivity. Qed.

(** Whitespace before a string does not change what [lstrip] gives. *)
Lemma lstrip_spaces_bounded (n : nat) :
  forall ws s : string,
    String.length ws <= n ->
    PyStr.lstrip ws = "" ->
    PyStr.lstrip (ws ++ s) = PyStr.lstrip s.
Proof.
  induction n as [|n IH]; intros ws s Hlen H.
  - destruct ws; [reflexivity|cbn in Hlen; lia].
  - destruct ws as [|c1 [|c2 [|c3 ws3]]].
    + reflexivity.
    + rewrite lstrip_cons1 in H. cbn [append].
      destruct s as [|d1 [|d2 s2]];
        [rewrite lstrip_cons1|rewrite lstrip_cons2|rewrite lstrip_cons3];
        destruct (PyStr.isspace c1); try discriminate H; reflexivity.
    + cbn [append]. destruct s as [|d1 s1]; [rewrite H; reflexivity|].
      rewrite lstrip_cons2 in H. rewrite lstrip_cons3.
      destruct (PyStr.isspace c1).
      * apply (IH (String c2 "") (String d1 s1)); [cbn in *; lia|exact H].
      * destruct (PyStr.isspace2 c1 c2); [reflexivity|discriminate H].
    + rewrite lstrip_cons3 in H. cbn [append]. rewrite lstrip_cons3.
      destruct (PyStr.isspace c1).
      * apply (IH (String c2 (String c3 ws3)) s); [cbn in *; lia|exact H].
      * destruct (PyStr.isspace2 c1 c2).
        -- apply (IH (String c3 ws3) s); [cbn in *; lia|exact H].
        -- destruct (PyStr.isspace3 c1 c2 c3); [|discriminate H].
           apply (IH ws3 s); [cbn in *; lia|exact H].
Qed.

Lemma lstrip_spaces (ws s : string) :
  all_space ws = true -> PyStr.lstrip (ws ++ s) = PyStr.lstrip s.
Proof.
  intro H. apply String.eqb_eq in H.
  apply (@lstrip_spaces_bounded (String.length ws) ws s (le_n _) H).
Qed.

Lemma rstrip_spaces (ws : string) :
  all_space ws = true -> PyStr.rstrip ws = "".
Proof.
  unfold all_space. destruct ws as [|c ws]; [reflexivity|].
  intro H. cbn [PyStr.rstrip]. rewrite H. reflexivity.
Qed.

(** A byte that starts no whitespace character stays where it is. *)
Lemma lstrip_keeps (c : ascii) (s : string) :
  leads_space c = false -> PyStr.lstrip (String c s) = String c s.
Proof.
  unfold leads_space. intro H.
  apply orb_false_iff in H. destruct H as [H E227].
  apply orb_false_iff in H. destruct H as [H E226].
  apply orb_false_iff in H. destruct H as [H E225].
  apply orb_false_iff in H. destruct H as [H E194].
  assert (S2 : forall c2, PyStr.isspace2 c c2 = false).
  { intro c2. unfold PyStr.isspace2. rewrite E194. reflexivity. }
  assert (S3 : forall c2 c3, PyStr.isspace3 c c2 c3 = false).
  { intros c2 c3. unfold PyStr.isspace3. rewrite E225, E226, E227.
    reflexivity. }
  destruct s as [|c2 [|c3 s3]];
    [rewrite lstrip_cons1|rewrite lstrip_cons2|rewrite lstrip_cons3];
    rewrite H, ?S2, ?S3; reflexivity.
Qed.

Lemma rstrip_keeps (c : ascii) (s : string) :
  leads_space c = false ->
  PyStr.rstrip (String c s) = String c (PyStr.rstrip s).
Proof.
  intro H. cbn [PyStr.rstrip]. rewrite (@lstrip_keeps c s H). reflexivity.
Qed.

(** The letters that [lower] sends to a letter of "quit" start no
    whitespace character. *)
Lemma quit_letter_not_space (c : ascii) :
  (PyStr.lower_ascii c = "q" \/ PyStr.lower_ascii c = "u" \/
   PyStr.lower_ascii c = "i" \/ PyStr.lower_ascii c = "t")%char ->
  leads_space c = false.
Proof.
  destruct c as [[] [] [] [] [] [] [] []]; vm_compute;
    intros [H|[H|[H|H]]]; try reflexivity; discriminate H.
Qed.

Lemma quit_line (ws1 word ws2 : string) :
  all_space ws1 = true ->
  all_space ws2 = true ->
  PyStr.lower word = "quit" ->
  is_quit (Ok (ws1 ++ word ++ ws2)%string) = true.
Proof.
  intros H1 H2 Hw. cbn [is_quit]. unfold PyStr.strip.
  rewrite (@lstrip_spaces ws1 (word ++ ws2) H1).
  destruct word as [|c1 [|c2 [|c3 [|c4 [|c5 w]]]]]; cbn [PyStr.lower] in Hw;
    try discriminate Hw.
  injection Hw as E1 E2 E3 E4.
  assert (S1 : leads_space c1 = false) by (apply quit_letter_not_space; auto).
  assert (S2 : leads_space c2 = false) by (apply quit_letter_not_space; auto).
  assert (S3 : leads_space c3 = false) by (apply quit_letter_not_space; auto).
  assert (S4 : leads_space c4 = false) by (apply quit_letter_not_space; auto).
  cbn [append].
  rewrite (@lstrip_keeps c1 _ S1).
  rewrite (@rstrip_keeps c1 _ S1), (@rstrip_keeps c2 _ S2),
    (@rstrip_keeps c3 _ S3), (@rstrip_keeps c4 _ S4).
  rewrite (@rstrip_spaces ws2 H2).
  cbn [PyStr.lower]. rewrite E1, E2, E3, E4. reflexivity.
Qed.

(** X1: a line that is "quit" in any letter case, with any whitespace
    around it, ends the loop at once: the turn only reads the line, no
    request reaches the session or the model, and the input that
    follows is never read. *)
Theorem quit_ends_the_loop (env : Env) (ws1 word ws2 : string)
    (rest : list (Result string)) (st : State) :
  all_space ws1 = true ->
  all_space ws2 = true ->
  PyStr.lower word = "quit" ->
  loop env (Ok (ws1 ++ word ++ ws2)%string :: rest) st
    = Some (Ok tt, after (EvInput prompt) st).
Proof.
  intros H1 H2 Hw.
  pose proof (@quit_line ws1 word ws2 H1 H2 Hw) as Hq.
  cbn [loop]. unfold turn, try_except.
  unfold bind at 1. unfold ask at 1. cbn [is_quit] in Hq. rewrite Hq.
  reflexivity.
Qed.

Lemma quit_ends_the_loop_witness :
  loop (Sample.world Sample.catalog [] (Sample.report "" false))
    [Ok ((" " ++ PyStr.nbsp) ++ "QuIt" ++ (PyStr.ideographic_space ++ " "))%string;
     Ok "never read"] init
  = Some (Ok tt, after (EvInput prompt) init).
Proof.
  apply (@quit_ends_the_loop
           (Sample.world Sample.catalog [] (Sample.report "" false))
           (" " ++ PyStr.nbsp)%string "QuIt"
           (PyStr.ideographic_space ++ " ")%string
           [Ok "never read"] init); reflexivity.
Defined.

(** ** Errors inside the loop *)

(** X2: whatever [Exception] [process_query] raises in a turn, from
    itself or from anything it calls, the handler of the loop catches
    it: the turn ends as [Failed], the Error line is printed on top of
    what [process_query] left, and nothing is raised.  The loop then
    takes the next input: it reads the next line on top of the Error
    line, ends there at a quit line, and with the session set it sends
    a query to the session. *)
Theorem exception_is_printed_and_loop_goes_on
    (env : Env) (raw : string) (rest : list (Result string))
    (st st2 : State) (e : exn) :
  is_quit (Ok raw) = false ->
  process_query env (PyStr.strip raw) (after (EvInput prompt) st)
    = (Raise e, st2) ->
  is_Exception e = true ->
  let st' := after (EvPrint (error_line e)) st2 in
  turn env (Ok raw) st = (Ok (Failed (error_line e)), st') /\
  trace st' = EvPrint (error_line e) :: trace st2 /\
  loop env (Ok raw :: rest) st = loop env rest st' /\
  (forall next rest2,
     loop env (Ok raw :: next :: rest2) st
     = continue_with env rest2 (turn env next st')) /\
  (forall raw2 rest2,
     is_quit (Ok raw2) = true ->
     loop env (Ok raw :: Ok raw2 :: rest2) st
     = Some (Ok tt, after (EvInput prompt) st')) /\
  (session st2 = true -> goes_on env (Ok raw) st st').
Proof.
  intros Hq Hp He st'.
  pose proof (@turn_failure env raw st st2 e Hq Hp He) as Ht.
  split; [exact Ht|]. split; [reflexivity|].
  split; [apply (@loop_after_failure env (Ok raw) rest st _ _ Ht)|].
  split; [|split].
  - intros next rest2. cbn [loop]. rewrite Ht. reflexivity.
  - intros raw2 rest2 Hq2.
    rewrite (@loop_after_failure env (Ok raw) (Ok raw2 :: rest2) st _ _ Ht).
    apply loop_quit, Hq2.
  - intro Hs. apply (@failed_turn_goes_on env (Ok raw) st st' _ Ht).
    exact Hs.
Qed.

Lemma exception_is_printed_and_loop_goes_on_witness :
  let env := Sample.world Sample.catalog [] (Sample.report "" false) in
  let st := Sample.connected env in
  let e := Exn IndexError "list index out of range" in
  let st2 :=
    snd (process_query env "Any earthquakes?" (after (EvInput prompt) st)) in
  let st' := after (EvPrint (error_line e)) st2 in
  turn env (Ok "Any earthquakes?") st = (Ok (Failed (error_line e)), st') /\
  trace st' = EvPrint (error_line e) :: trace st2 /\
  loop env [Ok "Any earthquakes?"; Ok "quit"] st = loop env [Ok "quit"] st' /\
  (forall next rest2,
     loop env (Ok "Any earthquakes?" :: next :: rest2) st
     = continue_with env rest2 (turn env next st')) /\
  (forall raw2 rest2,
     is_quit (Ok raw2) = true ->
     loop env (Ok "Any earthquakes?" :: Ok raw2 :: rest2) st
     = Some (Ok tt, after (EvInput prompt) st')) /\
  (session st2 = true -> goes_on env (Ok "Any earthquakes?") st st').
Proof.
  intros env st e st2 st'.
  apply (@exception_is_printed_and_loop_goes_on env "Any earthquakes?"
           [Ok "quit"] st st2 e); reflexivity.
Defined.

(** One iteration whose [input] raises an [Exception]. *)
Lemma loop_input_exception (env : Env) (e : exn)
    (rest : list (Result string)) (st : State) :
  is_Exception e = true ->
  loop env (Raise e :: rest) st
    = loop env rest (after (EvPrint (error_line e)) (after (EvInput prompt) st)).
Proof.
  intro He. cbn [loop]. unfold turn, try_except.
  unfold bind at 1. unfold ask at 1. rewrite He. reflexivity.
Qed.

(** Failed reads pile up as they come. *)
Lemma after_errors_shift (e : exn) (n : nat) (st : State) :
  after_errors e n
    (after (EvPrint (error_line e)) (after (EvInput prompt) st))
  = after_errors e (S n) st.
Proof.
  induction n as [|n IH].
  - reflexivity.
  - change (after_errors e (S n) ?s)
      with (after (EvPrint (error_line e))
              (after (EvInput prompt) (after_errors e n s))).
    rewrite IH. reflexivity.
Qed.

(** [n] reads that raise the [Exception] [e] are [n] iterations. *)
Lemma loop_input_exceptions (env : Env) (e : exn) (n : nat)
    (rest : list (Result string)) (st : State) :
  is_Exception e = true ->
  loop env (repeat (Raise e) n ++ rest) st
    = loop env rest (after_errors e n st).
Proof.
  intro He. revert st.
  induction n as [|n IH]; intro st.
  - reflexivity.
  - cbn [repeat app].
    rewrite (@loop_input_exception env e (repeat (Raise e) n ++ rest) st He).
    rewrite IH. rewrite after_errors_shift. reflexivity.
Qed.

(** X3: the end of the input does not end the loop.  [input] raises
    [EOFError], an [Exception]; the handler catches it, prints its
    Error line and the loop asks again.  After [n] such reads the loop
    is still running, the trace holds [n] prompts, each followed by the
    Error line, the exit stack and the session are as before, and the
    loop goes on from there with whatever is read next: a quit line
    ends it after one more prompt. *)
Theorem end_of_input_does_not_end_the_loop
    (env : Env) (e : exn) (n : nat) (st : State) :
  is_Exception e = true ->
  loop env (repeat (Raise e) n) st = None /\
  (forall rest,
     loop env (repeat (Raise e) n ++ rest) st
     = loop env rest (after_errors e n st)) /\
  (forall raw rest,
     is_quit (Ok raw) = true ->
     loop env (repeat (Raise e) n ++ Ok raw :: rest) st
     = Some (Ok tt, after (EvInput prompt) (after_errors e n st))) /\
  trace (after_errors e n st)
    = List.concat (repeat [EvPrint (error_line e); EvInput prompt] n)
        ++ trace st /\
  exit_stack (after_errors e n st) = exit_stack st /\
  session (after_errors e n st) = session st.
Proof.
  intro He. split; [|split; [|split]].
  - rewrite <- (app_nil_r (repeat (Raise e) n)).
    rewrite (@loop_input_exceptions env e n [] st He). reflexivity.
  - intro rest. apply loop_input_exceptions, He.
  - intros raw rest Hq.
    rewrite (@loop_input_exceptions env e n (Ok raw :: rest) st He).
    apply loop_quit, Hq.
  - induction n as [|n IH].
    + repeat split.
    + destruct IH as (IHt & IHx & IHs).
      change (after_errors e (S n) st)
        with (after (EvPrint (error_line e))
                (after (EvInput prompt) (after_errors e n st))).
      cbn [after log snd trace exit_stack session repeat List.concat app].
      rewrite IHt. repeat split; assumption.
Qed.

Lemma end_of_input_does_not_end_the_loop_witness :
  let env := Sample.world Sample.catalog [] (Sample.report "" false) in
  let e := Exn EOFError "EOF when reading a line" in
  loop env (repeat (Raise e) 100) init = None /\
  (forall rest,
     loop env (repeat (Raise e) 100 ++ rest) init
     = loop env rest (after_errors e 100 init)) /\
  (forall raw rest,
     is_quit (Ok raw) = true ->
     loop env (repeat (Raise e) 100 ++ Ok raw :: rest) init
     = Some (Ok tt, after (EvInput prompt) (after_errors e 100 init))) /\
  trace (after_errors e 100 init)
    = List.concat (repeat [EvPrint (error_line e); EvInput prompt] 100)
        ++ trace init /\
  exit_stack (after_errors e 100 init) = exit_stack init /\
  session (after_errors e 100 init) = session init.
Proof.
  intros env e.
  apply (@end_of_input_does_not_end_the_loop env e 100 init).
  reflexivity.
Defined.

(** X4: what does not derive from [Exception] (a keyboard interrupt, a
    cancellation) is not caught.  Raised by [input] or inside the turn,
    it ends the loop at once, no Error line is printed and the rest of
    the input is not read. *)
Theorem base_exception_leaves_the_loop
    (env : Env) (e : exn) (rest : list (Result string)) (st : State) :
  is_Exception e = false ->
  loop env (Raise e :: rest) st = Some (Raise e, after (EvInput prompt) st) /\
  forall raw st2,
    is_quit (Ok raw) = false ->
    process_query env (PyStr.strip raw) (after (EvInput prompt) st)
      = (Raise e, st2) ->
    loop env (Ok raw :: rest) st = Some (Raise e, st2).
Proof.
  intro He. split.
  - cbn [loop]. unfold turn, try_except.
    unfold bind at 1. unfold ask at 1. rewrite He. reflexivity.
  - intros raw st2 Hq Hp. cbn [loop]. unfold turn, try_except.
    unfold bind at 1. unfold ask at 1. cbn [is_quit] in Hq. rewrite Hq.
    unfold bind at 1. unfold after, log in Hp. cbn [snd] in Hp. rewrite Hp.
    rewrite He. reflexivity.
Qed.

Lemma base_exception_leaves_the_loop_witness :
  let env := Sample.world Sample.catalog [] (Sample.report "" false) in
  let e := Exn KeyboardInterrupt "" in
  loop env [Raise e; Ok "never read"] init
    = Some (Raise e, after (EvInput prompt) init).
Proof.
  intros env e.
  apply (@base_exception_leaves_the_loop env e [Ok "never read"] init).
  reflexivity.
Defined.

(** ** The answers of a turn *)

(** X5: when the first output item is a message whose first content part
    is text, that text is the final answer, and the turn has sent the
    session nothing but its [list_tools] request: no tool is called,
    whatever items follow the first. *)
Theorem plain_message_is_the_answer
    (env : Env) (query : string) (st : State) (tools : list Tool.t)
    (text : string) (parts : list OutputContent) (more : list OutputItem) :
  let request := model_request query tools in
  session st = true ->
  list_tools env (trace st) = Ok tools ->
  responses_create env request (EvRequest ListTools :: trace st)
    = Ok {| Response.output :=
              OutputMessage (OutputText text :: parts) :: more |} ->
  fst (process_query env query st) = Ok text /\
  trace (snd (process_query env query st))
    = EvModel request :: EvRequest ListTools :: trace st.
Proof.
  intros request Hs Hl Hm.
  rewrite (@process_query_model env query st Hs tools Hl _ Hm).
  split; reflexivity.
Qed.

Lemma plain_message_is_the_answer_witness :
  let env :=
    Sample.world Sample.catalog
      [OutputMessage [OutputText "Hi"]; FunctionCall "search_by_place" "{}"]
      (Sample.report "" false) in
  let st := Sample.connected env in
  fst (process_query env "Hello" st) = Ok "Hi" /\
  trace (snd (process_query env "Hello" st))
    = EvModel (model_request "Hello" Sample.catalog)
        :: EvRequest ListTools :: trace st.
Proof.
  intros env st.
  apply (@plain_message_is_the_answer env "Hello" st Sample.catalog
           "Hi" [] [FunctionCall "search_by_place" "{}"]); reflexivity.
Defined.

(** X6: a tool result without text is an error of the turn.  With an
    empty content list the turn raises [IndexError]; with a first block
    that is not text (an image, a resource) it raises [AttributeError].
    In both cases the tool has been called. *)
Theorem tool_result_without_text_raises
    (env : Env) (query : string) (st : State) (tools : list Tool.t)
    (tool_name arguments : string) (more : list OutputItem)
    (tool_args : pyvalue) :
  let request := model_request query tools in
  let asked := EvModel request :: EvRequest ListTools :: trace st in
  session st = true ->
  list_tools env (trace st) = Ok tools ->
  responses_create env request (EvRequest ListTools :: trace st)
    = Ok {| Response.output := FunctionCall tool_name arguments :: more |} ->
  literal_eval env arguments = Ok tool_args ->
  (forall failed,
     call_tool env tool_name tool_args asked
       = Ok {| CallToolResult.content := [];
               CallToolResult.isError := failed |} ->
     process_query env query st
       = (Raise (Exn IndexError "list index out of range"),
          {| trace := EvRequest (CallTool tool_name tool_args) :: asked;
             exit_stack := exit_stack st; session := true |})) /\
  (forall type blocks failed,
     call_tool env tool_name tool_args asked
       = Ok {| CallToolResult.content := NonTextContent type :: blocks;
               CallToolResult.isError := failed |} ->
     exists e,
       exn_cls e = AttributeError /\
       process_query env query st
       = (Raise e,
          {| trace := EvRequest (CallTool tool_name tool_args) :: asked;
             exit_stack := exit_stack st; session := true |})).
Proof.
  intros request asked Hs Hl Hm Ha.
  rewrite (@process_query_dispatch env query st Hs tools Hl _ _ _ _ Hm Ha).
  fold request. fold asked. split.
  - intros failed Hc. run. rewrite Hc. reflexivity.
  - intros type blocks failed Hc. run. rewrite Hc. cbn.
    eexists. split; [|reflexivity]. reflexivity.
Qed.

Lemma tool_result_without_text_raises_witness :
  let env :=
    Sample.world Sample.catalog [FunctionCall "search_by_place" "{}"]
      {| CallToolResult.content := [];
         CallToolResult.isError := false |} in
  let st := Sample.connected env in
  fst (process_query env "Any earthquakes?" st)
    = Raise (Exn IndexError "list index out of range").
Proof.
  intros env st.
  destruct (@tool_result_without_text_raises env "Any earthquakes?" st
              Sample.catalog "search_by_place" "{}" [] (PyDict [])
              eq_refl eq_refl eq_refl eq_refl) as [Hempty _].
  rewrite (Hempty false eq_refl). reflexivity.
Defined.

(** X7: what one turn sends, in order: the [list_tools] request, then at
    most one model call, then at most one [call_tool] request.  A tool is
    only called after the model has been asked, and never twice. *)
Theorem turn_sends_at_most_one_of_each
    (env : Env) (query : string) (st : State) :
  exists evs,
    trace (snd (process_query env query st)) = evs ++ trace st /\
    (evs = [] \/
     evs = [EvRequest ListTools] \/
     (exists request, evs = [EvModel request; EvRequest ListTools]) \/
     (exists request tool_name tool_args,
        evs = [EvRequest (CallTool tool_name tool_args);
               EvModel request; EvRequest ListTools])).
Proof.
  unfold process_query. run.
  destruct (session st) eqn:Hs; cbn.
  2: { exists []. auto. }
  destruct (list_tools env (trace st)) as [tools|e]; cbn.
  2: { exists [EvRequest ListTools]. auto. }
  destruct (responses_create env _ _) as [[[|item more]]|e]; cbn.
  3: { eexists [_; _]. split; [reflexivity|]. eauto. }
  1: { eexists [_; _]. split; [reflexivity|]. eauto. }
  destruct item as [tool_name arguments|[|[text|refusal] parts]|type|]; cbn;
    try (eexists [_; _]; split; [reflexivity|]; eauto 6; fail).
  - destruct (literal_eval env arguments) as [tool_args|e]; cbn.
    2: { eexists [_; _]. split; [reflexivity|]. eauto 6. }
    destruct (call_tool env tool_name tool_args _)
      as [[[|[text|ty] blocks] failed]|e]; cbn;
      (eexists [_; _; _]; split; [reflexivity|]; eauto 8).
  - destruct (_ || _); cbn; eexists [_; _]; split; try reflexivity; eauto 6.
Qed.

(** ** The loop and the connection *)

Lemma spawned_app (a b : list Event) : spawned (a ++ b) = spawned a ++ spawned b.
Proof.
  induction a as [|[] a IH]; cbn; rewrite ?IH; reflexivity.
Qed.

Lemma chat_events_spawn_nothing (evs : list Event) :
  forallb chat_event evs = true -> spawned evs = [].
Proof.
  induction evs as [|ev evs IH]; cbn; [auto|].
  intro H. apply andb_true_iff in H. destruct H as [Hev Hevs].
  destruct ev as [| | |[]| | | | |]; try discriminate Hev; cbn; auto.
Qed.

Lemma loop_keeps_session (env : Env) (stdin : list (Result string)) :
  forall st r st',
    loop env stdin st = Some (r, st') -> session st' = session st.
Proof.
  induction stdin as [|line rest IH]; intros st r st' H; cbn [loop] in H.
  - discriminate H.
  - destruct (@turn_emits env line st) as [evs (_ & _ & _ & Hs)].
    destruct (turn env line st) as [[[| |]|e] st1]; cbn [snd] in *.
    + injection H as <- <-. exact Hs.
    + rewrite (IH _ _ _ H). exact Hs.
    + rewrite (IH _ _ _ H). exact Hs.
    + injection H as <- <-. exact Hs.
Qed.

(** X8: the interactive loop leaves the connection alone.  However it
    ends, and whatever failed in its turns, it has started no process,
    entered or exited no context, sent no [initialize], and the exit
    stack and the session attribute are what they were. *)
Theorem chat_loop_leaves_the_connection_alone
    (env : Env) (stdin : list (Result string)) (st : State)
    (r : Result unit) (st' : State) :
  chat_loop env stdin st = Some (r, st') ->
  exit_stack st' = exit_stack st /\
  session st' = session st /\
  spawned (trace st') = spawned (trace st) /\
  entered (trace st') = entered (trace st) /\
  exited (trace st') = exited (trace st) /\
  count is_initialize (trace st') = count is_initialize (trace st) /\
  count is_aclose (trace st') = count is_aclose (trace st).
Proof.
  intro H.
  pose proof H as Hemits. apply chat_loop_emits in Hemits.
  destruct Hemits as [evs (Ht & Hp & Hx)].
  destruct (chat_events_silent evs Hp) as (Ee & Ex & Ea & Ei).
  pose proof (chat_events_spawn_nothing evs Hp) as Es.
  split; [exact Hx|]. split.
  - unfold chat_loop in H. revert H. run. intro H.
    apply loop_keeps_session in H. exact H.
  - rewrite Ht, spawned_app, entered_app, exited_app, !count_app.
    rewrite Es, Ee, Ex, Ea, Ei. auto.
Qed.

Lemma chat_loop_leaves_the_connection_alone_witness :
  let env :=
    Sample.world Sample.catalog [FunctionCall "search_by_place" "{"]
      (Sample.report "" false) in
  let st := Sample.connected env in
  match chat_loop env [Ok "Any earthquakes?"; Ok "quit"] st with
  | Some (_, st') =>
      exit_stack st' = [Session; Transport] /\
      exited (trace st') = []
  | None => False
  end.
Proof.
  intros env st.
  destruct (chat_loop env [Ok "Any earthquakes?"; Ok "quit"] st)
    as [[r st']|] eqn:E.
  - destruct (@chat_loop_leaves_the_connection_alone env _ st r st' E)
      as (Hx & _ & _ & _ & He & _).
    rewrite Hx, He. split; reflexivity.
  - vm_compute in E. discriminate E.
Defined.

(** ** Teardown *)

Lemma run_exits_clean (env : Env) (stack : list Resource) :
  (forall r tr, aexit env r tr = Ok tt) ->
  forall tr, fst (run_exits env stack None tr) = None.
Proof.
  intro Hclean. induction stack as [|r stack IH]; intro tr; cbn.
  - reflexivity.
  - rewrite Hclean. apply IH.
Qed.

Lemma cleanup_clean (env : Env) (st : State) :
  (forall r tr, aexit env r tr = Ok tt) ->
  cleanup env st = (Ok tt, snd (cleanup env st)).
Proof.
  intro Hclean. unfold cleanup, aclose.
  pose proof (@run_exits_clean env (exit_stack st) Hclean
                (EvAclose :: trace st)) as H.
  destruct (run_exits env (exit_stack st) None (EvAclose :: trace st))
    as [pending tr]. cbn in *. rewrite H. reflexivity.
Qed.

(** X9: when no exit callback raises, the teardown changes nothing in
    the outcome of the run: a failure to connect leaves [main] as the
    very exception that [connect_to_server] raised, and otherwise [main]
    ends as the loop ended, in both cases after the cleanup. *)
Theorem clean_teardown_keeps_the_outcome
    (env : Env) (argv : list string) (stdin : list (Result string)) :
  2 <= List.length argv ->
  (forall r tr, aexit env r tr = Ok tt) ->
  (forall e st1,
     connect_to_server env (nth 1 argv "") init = (Raise e, st1) ->
     main env argv stdin = Some (Raise e, snd (cleanup env st1))) /\
  (forall st1 rb st2,
     connect_to_server env (nth 1 argv "") init = (Ok tt, st1) ->
     chat_loop env stdin st1 = Some (rb, st2) ->
     main env argv stdin = Some (rb, snd (cleanup env st2))).
Proof.
  intros Hargv Hclean. apply Nat.ltb_ge in Hargv. split.
  - intros e st1 Hc. unfold main. rewrite Hargv, Hc.
    unfold finally_cleanup. rewrite (@cleanup_clean env st1 Hclean).
    reflexivity.
  - intros st1 rb st2 Hc Hl. unfold main. rewrite Hargv, Hc, Hl.
    unfold finally_cleanup. rewrite (@cleanup_clean env st2 Hclean).
    reflexivity.
Qed.

Lemma clean_teardown_keeps_the_outcome_witness :
  main Sample.no_handshake ["client.py"; "server.py"] [Ok "quit"]
  = Some (Raise (Exn (OtherException "McpError") "Connection closed"),
          snd (cleanup Sample.no_handshake
                 (snd (connect_to_server Sample.no_handshake
                         "server.py" init)))).
Proof.
  destruct (@clean_teardown_keeps_the_outcome Sample.no_handshake
              ["client.py"; "server.py"] [Ok "quit"] (le_n 2)
              (fun _ _ => eq_refl)) as [Hfail _].
  apply Hfail. reflexivity.
Defined.

(** The last callback to run decides what [aclose] raises. *)
Lemma run_exits_last (env : Env) (stack : list Resource) (r : Resource) :
  forall pending tr,
    fst (run_exits env (stack ++ [r]) pending tr)
    = match aexit env r (rev (map EvExit stack) ++ tr) with
      | Ok _ => fst (run_exits env stack pending tr)
      | Raise e => Some e
      end.
Proof.
  induction stack as [|x stack IH]; intros pending tr; cbn.
  - destruct (aexit env r tr); reflexivity.
  - rewrite IH, <- app_assoc. reflexivity.
Qed.

(** X10: an exit callback that raises replaces the outcome of the run.
    When the context entered first (the Transport, exited last) raises
    [e] on exit, [e] is what leaves the [finally] block, whatever the
    loop returned or raised and whatever the other callbacks raised;
    all callbacks have run all the same. *)
Theorem failing_exit_replaces_the_outcome
    (env : Env) (rb : Result unit) (st : State)
    (stack : list Resource) (r : Resource) (e : exn) :
  exit_stack st = stack ++ [r] ->
  aexit env r (rev (map EvExit stack) ++ EvAclose :: trace st) = Raise e ->
  finally_cleanup env (Some (rb, st)) = Some (Raise e, snd (cleanup env st)) /\
  exited (trace (snd (cleanup env st))) = r :: rev stack ++ exited (trace st).
Proof.
  intros Hstack Hexit. split.
  - unfold finally_cleanup, cleanup, aclose.
    pose proof (@run_exits_last env stack r None (EvAclose :: trace st)) as H.
    rewrite Hexit in H. rewrite Hstack.
    destruct (run_exits env (stack ++ [r]) None (EvAclose :: trace st))
      as [pending tr]. cbn in H. rewrite H. reflexivity.
  - destruct (cleanup_shape env st) as [Ht _]. rewrite Ht, Hstack.
    rewrite exited_app, <- map_rev, exited_exits, rev_app_distr.
    reflexivity.
Qed.

Lemma failing_exit_replaces_the_outcome_witness :
  let env :=
    {| stdio_client := fun _ _ _ => Ok tt;
       client_session := fun _ => Ok tt;
       aexit := fun r _ =>
         match r with
         | Transport => Raise (Exn (OtherException "ProcessLookupError") "")
         | Session => Raise (Exn (OtherException "RuntimeError") "")
         end;
       initialize := fun _ => Ok tt;
       list_tools := fun _ => Ok [];
       call_tool := fun _ _ _ => Ok (Sample.report "" false);
       responses_create := fun _ _ => Ok {| Response.output := [] |};
       literal_eval := Sample.toy_literal_eval |} in
  let st := Sample.connected env in
  finally_cleanup env (Some (Ok tt, st))
    = Some (Raise (Exn (OtherException "ProcessLookupError") ""),
            snd (cleanup env st)) /\
  exited (trace (snd (cleanup env st))) = [Transport; Session].
Proof.
  intros env st.
  apply (@failing_exit_replaces_the_outcome env (Ok tt) st [Session]
           Transport (Exn (OtherException "ProcessLookupError") ""));
    reflexivity.
Defined.

(** * Properties of the tool server *)

Ltac srun :=
  cbv beta iota delta
    [Server.bind Server.ret Server.lift Server.ask Server.print
     Server.try_except Server.and_then]; cbn.

(** Case analysis on the innermost result or test that blocks the
    computation. *)
Ltac crack :=
  repeat match goal with
         | |- context [match ?x with Ok _ => _ | Raise _ => _ end] =>
             lazymatch x with
             | context [match _ with _ => _ end] => fail
             | _ => destruct x eqn:?; cbn
             end
         | |- context [if ?b then _ else _] =>
             lazymatch b with
             | context [match _ with _ => _ end] => fail
             | _ => destruct b eqn:?; cbn
             end
         end.

(** ** The two HTTP helpers *)

(** X11: [make_usgs_request] never raises an [Exception].  It returns
    the decoded document when the request succeeds; any [Exception] of
    the request becomes [None] after one line is printed.  Only what is
    no [Exception] gets through. *)
Theorem usgs_request_swallows_exceptions
    (env : Server.Env) (url : string) (params : pyvalue)
    (log : list Server.Event) :
  let sent := Server.Get url (Some Server.usgs_headers) params "30.0" in
  let answer :=
    Server.http_get_json env url (Some Server.usgs_headers) params "30.0" log in
  match Server.make_usgs_request env url params log with
  | (Ok data, log') =>
      (answer = Ok data /\ log' = sent :: log) \/
      (exists e,
         answer = Raise e /\ is_Exception e = true /\ data = PyNone /\
         log' = Server.Print (Server.usgs_error_line e) :: sent :: log)
  | (Raise e, log') =>
      answer = Raise e /\ is_Exception e = false /\ log' = sent :: log
  end.
Proof.
  intros sent answer. unfold Server.make_usgs_request. srun.
  fold answer. destruct answer as [data|e]; cbn.
  - left. auto.
  - destruct (is_Exception e) eqn:He; cbn.
    + right. exists e. auto.
    + auto.
Qed.

(** X12: [make_geocoding_request] never returns a false value and never
    raises an [Exception]: its result is the dict of the two
    coordinates, or a string that is not empty (the not-found text or
    the text of the failure). *)
Theorem geocoding_result_is_never_false
    (env : Server.Env) (location_name : string) (log : list Server.Event) :
  match fst (Server.make_geocoding_request env location_name log) with
  | Ok v =>
      Server.truthy v = true /\
      ((exists latitude longitude,
          v = PyDict [ (PyString "lat", latitude);
                       (PyString "lon", longitude) ]) \/
       v = PyString " Could not find location for '{location_name}'." \/
       (exists e,
          v = PyString ("Geocoding failed for '" ++ location_name ++ "': "
                        ++ str e)))
  | Raise e => is_Exception e = false
  end.
Proof.
  unfold Server.make_geocoding_request. srun.
  assert (Hfail : forall e,
            Server.truthy
              (PyString ("Geocoding failed for '" ++ location_name ++ "': "
                         ++ str e)) = true) by reflexivity.
  crack;
    try assumption;
    try (split; [reflexivity|]; eauto 6; fail).
Qed.

(** ** Searching by place *)

Lemma geocoding_ok_truthy (env : Server.Env) (location_name : string)
    (log : list Server.Event) (v : pyvalue) :
  fst (Server.make_geocoding_request env location_name log) = Ok v ->
  Server.truthy v = true.
Proof.
  unfold Server.make_geocoding_request. srun. crack;
    intro H; inversion H; reflexivity.
Qed.

(** Every report starts on a new line. *)
Lemma format_starts_new_line (env : Server.Env) (feature : pyvalue) (s : string) :
  Server.format_usgs_request env feature = Ok s ->
  exists t, s = String (ascii_of_nat 10) t.
Proof.
  unfold Server.format_usgs_request, Server.and_then, Server.no_coordinates.
  repeat match goal with
         | |- context [match ?x with Ok _ => _ | Raise _ => _ end] =>
             lazymatch x with
             | context [match _ with _ => _ end] => fail
             | _ => destruct x as [?|?]
             end
         | |- context [if ?b then _ else _] =>
             lazymatch b with
             | context [match _ with _ => _ end] => fail
             | _ => destruct b
             end
         | |- context [match ?l with [] => _ | _ :: _ => _ end] =>
             is_var l; destruct l
         | p : (pyvalue * pyvalue * pyvalue)%type |- _ => destruct p as [[? ?] ?]
         end;
    intro H; try discriminate H;
    injection H as <-; unfold Server.report, PyStr.nl; cbn [append]; eauto.
Qed.

Lemma mapM_format_new_lines (env : Server.Env) (items : list pyvalue) :
  forall results,
    Server.mapM (Server.format_usgs_request env) items = Ok results ->
    Forall (fun s => exists t, s = String (ascii_of_nat 10) t) results.
Proof.
  induction items as [|f items IH]; intros results; cbn [Server.mapM].
  - intro H. injection H as <-. constructor.
  - unfold Server.and_then at 1.
    destruct (Server.format_usgs_request env f) as [s|e] eqn:Hf;
      [|discriminate].
    unfold Server.and_then.
    destruct (Server.mapM (Server.format_usgs_request env) items)
      as [rs|e]; [|discriminate].
    intro H. injection H as <-. constructor.
    + apply (format_starts_new_line env f Hf).
    + apply IH. reflexivity.
Qed.

Lemma join_lines_new_line (results : list string) :
  Forall (fun s => exists t, s = String (ascii_of_nat 10) t) results ->
  Server.join_lines results = "" \/
  exists t, Server.join_lines results = String (ascii_of_nat 10) t.
Proof.
  intro H. destruct H as [|s rest [t ->] _]; [left; reflexivity|].
  right. cbn [Server.join_lines]. destruct rest; cbn [append]; eauto.
Qed.

(** The joined reports are empty or start on a new line. *)
Lemma reports_new_line (env : Server.Env) (data : pyvalue)
    (max_results : option Z) (s : string) :
  Server.reports env data max_results = Ok s ->
  s = "" \/ exists t, s = String (ascii_of_nat 10) t.
Proof.
  unfold Server.reports, Server.and_then.
  destruct (Server.py_getitem data "features"); [|discriminate].
  destruct (Server.py_slice_to _ _); [|discriminate].
  destruct (Server.py_iter _) as [items|]; [|discriminate].
  destruct (Server.mapM _ items) as [results|] eqn:Hm; [|discriminate].
  intro H. injection H as <-.
  apply join_lines_new_line, (mapM_format_new_lines env items Hm).
Qed.

(** X13: the answer "Unable to geocode location: ..." is never given.
    The test that guards it looks for a false geocoding result, and
    [make_geocoding_request] has none: whatever the services answer,
    the search raises, or reports that nothing was found, or returns
    the reports. *)
Theorem unable_to_geocode_is_never_answered
    (env : Server.Env) (location : string) (radius_km : pyvalue)
    (start_time end_time : option string) (min_magnitude : pyvalue)
    (max_results : Z) (log : list Server.Event) :
  match fst (Server.search_earthquake_by_place env location radius_km
               start_time end_time min_magnitude max_results log) with
  | Ok answer =>
      answer <> ("Unable to geocode location: " ++ location)%string /\
      (answer = "No earthquakes found for the given region/time window." \/
       answer = "" \/
       exists t, answer = String (ascii_of_nat 10) t)
  | Raise _ => True
  end.
Proof.
  unfold Server.search_earthquake_by_place.
  unfold Server.bind at 1.
  destruct (match end_time with
            | Some t => Server.ret t
            | None => Server.ask Server.Clock
                        (fun log => Ok (Server.utcnow env log))
            end log) as [[end_time'|e] log1] eqn:E1.
  2: { destruct end_time; discriminate E1. }
  unfold Server.bind at 1.
  destruct (match start_time with
            | Some t => Server.ret t
            | None => Server.ask Server.Clock
                        (fun log => Ok (Server.utc_week_ago env log))
            end log1) as [[start_time'|e] log2] eqn:E2.
  2: { destruct start_time; discriminate E2. }
  unfold Server.bind at 1.
  pose proof (@geocoding_ok_truthy env location log2) as Htruthy.
  destruct (Server.make_geocoding_request env location log2)
    as [[geo_data|e] log3]; cbn [fst] in *; [|exact I].
  rewrite (Htruthy geo_data eq_refl). cbn [negb].
  destruct min_magnitude; srun; crack; try exact I;
    try (split; [discriminate | auto]; fail);
    match goal with
    | H : Server.reports _ _ _ = Ok _ |- _ =>
        destruct (reports_new_line _ _ _ H) as [->|[t ->]];
        (split; [discriminate | eauto])
    end.
Qed.

(** X14: when the geocoder fails with an [Exception], or knows no such
    place, the search does not answer with a message: the helper has
    returned a string, indexing it with ["lat"] raises [TypeError], and
    the earthquake catalog is never asked. *)
Theorem failed_geocoding_raises_type_error
    (env : Server.Env) (location : string) (radius_km : pyvalue)
    (start_time end_time : option string) (min_magnitude : pyvalue)
    (max_results : Z) (log : list Server.Event) :
  let log1 :=
    Server.clock_reads start_time ++ Server.clock_reads end_time ++ log in
  let params_geo :=
    PyDict [ (PyString "q", PyString location);
             (PyString "format", PyString "json");
             (PyString "limit", PyInt 1) ] in
  match Server.http_get_json env Server.geocode_url None params_geo
          "15.0" log1 with
  | Raise e => is_Exception e = true
  | Ok results => Server.truthy results = false
  end ->
  Server.search_earthquake_by_place env location radius_km
    start_time end_time min_magnitude max_results log
  = (Raise (Exn TypeError "string indices must be integers, not 'str'"),
     Server.Get Server.geocode_url None params_geo "15.0" :: log1).
Proof.
  intros log1 params_geo H. subst log1.
  unfold Server.search_earthquake_by_place, Server.make_geocoding_request.
  destruct start_time, end_time; srun; cbn in H; fold params_geo;
    destruct (Server.http_get_json env Server.geocode_url None params_geo _ _)
      as [results|e]; cbn; rewrite H; reflexivity.
Qed.

Lemma failed_geocoding_raises_type_error_witness :
  Server.search_earthquake_by_place
    (Server.sample (Ok (PyList [])) (Ok PyNone))
    "Atlantis" (PyInt 300) None None PyNone 10 []
  = (Raise (Exn TypeError "string indices must be integers, not 'str'"),
     [ Server.Get Server.geocode_url None
         (PyDict [ (PyString "q", PyString "Atlantis");
                   (PyString "format", PyString "json");
                   (PyString "limit", PyInt 1) ]) "15.0";
       Server.Clock; Server.Clock ]).
Proof.
  apply (@failed_geocoding_raises_type_error
           (Server.sample (Ok (PyList [])) (Ok PyNone))
           "Atlantis" (PyInt 300) None None PyNone 10 []).
  reflexivity.
Defined.

(** X15: the search asks the catalog around the first hit of the
    geocoder: latitude and longitude are the floats of its ["lat"] and
    ["lon"], the other hits are ignored, the limit is [max_results], and
    [minmagnitude] is sent exactly when a minimum is given. *)
Theorem search_queries_around_the_first_hit
    (env : Server.Env) (location : string) (radius_km : pyvalue)
    (start_time end_time : string) (min_magnitude : pyvalue)
    (max_results : Z) (log : list Server.Event)
    (hit : list (pyvalue * pyvalue)) (others : list pyvalue)
    (lat lon latitude longitude : pyvalue) :
  let params_geo :=
    PyDict [ (PyString "q", PyString location);
             (PyString "format", PyString "json");
             (PyString "limit", PyInt 1) ] in
  let asked := Server.Get Server.geocode_url None params_geo "15.0" :: log in
  let params :=
    [ (PyString "format", PyString "geojson");
      (PyString "latitude", latitude);
      (PyString "longitude", longitude);
      (PyString "maxradiuskm", radius_km);
      (PyString "starttime", PyString start_time);
      (PyString "endtime", PyString end_time);
      (PyString "orderby", PyString "time");
      (PyString "limit", PyInt max_results) ] ++
    match min_magnitude with
    | PyNone => []
    | _ => [ (PyString "minmagnitude", min_magnitude) ]
    end in
  Server.http_get_json env Server.geocode_url None params_geo "15.0" log
    = Ok (PyList (PyDict hit :: others)) ->
  Server.lookup "lat" hit = Some lat ->
  Server.lookup "lon" hit = Some lon ->
  Server.float env lat = Ok latitude ->
  Server.float env lon = Ok longitude ->
  exists printed,
    snd (Server.search_earthquake_by_place env location radius_km
           (Some start_time) (Some end_time) min_magnitude max_results log)
    = printed ++
      Server.Get Server.USGS_API_BASE (Some Server.usgs_headers)
        (PyDict params) "30.0" :: asked /\
    (printed = [] \/ exists line, printed = [Server.Print line]).
Proof.
  intros params_geo asked params Hget Hlat Hlon Hflat Hflon.
  subst params asked.
  unfold Server.search_earthquake_by_place, Server.make_geocoding_request.
  srun. fold params_geo. rewrite Hget. cbn. rewrite Hlat. cbn.
  rewrite Hflat. cbn. rewrite Hlon. cbn. rewrite Hflon. cbn.
  destruct min_magnitude; cbn; crack;
    solve [ exists []; split; [reflexivity|auto]
          | eexists [_]; split; [reflexivity|eauto] ].
Qed.

Lemma search_queries_around_the_first_hit_witness :
  exists printed,
    snd (Server.search_earthquake_by_place
           (Server.sample (Ok Server.tokyo) (Ok PyNone))
           "Tokyo" (PyInt 300) (Some "2026-01-01") (Some "2026-01-08")
           (PyFloat "4.0") 10 [])
    = printed ++
      [ Server.Get Server.USGS_API_BASE (Some Server.usgs_headers)
          (PyDict [ (PyString "format", PyString "geojson");
                    (PyString "latitude", PyFloat "35.68");
                    (PyString "longitude", PyFloat "139.76");
                    (PyString "maxradiuskm", PyInt 300);
                    (PyString "starttime", PyString "2026-01-01");
                    (PyString "endtime", PyString "2026-01-08");
                    (PyString "orderby", PyString "time");
                    (PyString "limit", PyInt 10);
                    (PyString "minmagnitude", PyFloat "4.0") ]) "30.0";
        Server.Get Server.geocode_url None
          (PyDict [ (PyString "q", PyString "Tokyo");
                    (PyString "format", PyString "json");
                    (PyString "limit", PyInt 1) ]) "15.0" ] /\
    (printed = [] \/ exists line, printed = [Server.Print line]).
Proof.
  apply (@search_queries_around_the_first_hit
           (Server.sample (Ok Server.tokyo) (Ok PyNone))
           "Tokyo" (PyInt 300) "2026-01-01" "2026-01-08" (PyFloat "4.0") 10 []
           [ (PyString "lat", PyString "35.68");
             (PyString "lon", PyString "139.76") ] []
           (PyString "35.68") (PyString "139.76")
           (PyFloat "35.68") (PyFloat "139.76"));
    reflexivity.
Defined.

(** ** Listing earthquakes *)

Lemma no_features_unavailable (data : pyvalue) :
  Server.unavailable (Ok data) -> Server.no_features data = Ok true.
Proof.
  unfold Server.unavailable, Server.no_features.
  destruct data as [| | | | |l|items]; intro H;
    try (rewrite H; reflexivity).
  destruct (Server.truthy (PyDict items)); [|reflexivity].
  cbn. destruct (Server.lookup "features" items) as [features|];
    [rewrite H|]; reflexivity.
Qed.

(** What [make_usgs_request] hands to a tool when the catalog is
    unavailable. *)
Lemma usgs_unavailable (env : Server.Env) (params : pyvalue)
    (log : list Server.Event) :
  Server.unavailable
    (Server.http_get_json env Server.USGS_API_BASE
       (Some Server.usgs_headers) params "30.0" log) ->
  exists data log',
    Server.make_usgs_request env Server.USGS_API_BASE params log
      = (Ok data, log') /\
    Server.no_features data = Ok true.
Proof.
  unfold Server.make_usgs_request. srun.
  destruct (Server.http_get_json env _ _ params _ log) as [data|e]; intro H.
  - exists data. eexists. split; [reflexivity|].
    apply no_features_unavailable, H.
  - cbn in H. rewrite H. cbn. exists PyNone. eexists. split; reflexivity.
Qed.

(** X16: [get_earthquakes] cannot tell a failure from an empty result.
    When the request to the catalog fails with any [Exception], or the
    document is empty or has no features, the tool answers that no
    recent earthquakes were found; it does not raise. *)
Theorem get_earthquakes_reports_failure_as_no_results
    (env : Server.Env) (start_time : string) (end_time : option string)
    (min_magnitude : pyvalue) (max_results : option Z)
    (log : list Server.Event) :
  (forall headers params timeout log',
     Server.unavailable
       (Server.http_get_json env Server.USGS_API_BASE headers params
          timeout log')) ->
  fst (Server.get_earthquakes env start_time end_time min_magnitude
         max_results log)
  = Ok "No recent earthquakes found for the given filters.".
Proof.
  intro Hdown. unfold Server.get_earthquakes.
  unfold Server.bind at 1.
  destruct (Server.or_now env end_time log) as [[t|e] log1] eqn:E.
  2: { unfold Server.or_now, Server.ask, Server.ret in E.
       destruct end_time as [t|]; [destruct (t =? "")|]; discriminate E. }
  unfold Server.bind at 1.
  match goal with
  | |- context [Server.make_usgs_request env _ ?params log1] =>
      destruct (@usgs_unavailable env params log1 (Hdown _ _ _ _))
        as (data & log2 & -> & Hnone)
  end.
  unfold Server.bind at 1. unfold Server.lift at 1. rewrite Hnone.
  reflexivity.
Qed.

Lemma get_earthquakes_reports_failure_as_no_results_witness :
  fst (Server.get_earthquakes
         (Server.sample (Ok Server.tokyo)
            (Raise (Exn (OtherException "RequestError") "timed out")))
         "2026-01-01" None (PyFloat "3.0") (Some 4%Z) [])
  = Ok "No recent earthquakes found for the given filters.".
Proof.
  apply (@get_earthquakes_reports_failure_as_no_results
           (Server.sample (Ok Server.tokyo)
              (Raise (Exn (OtherException "RequestError") "timed out")))
           "2026-01-01" None (PyFloat "3.0") (Some 4%Z) []).
  intros headers params timeout log'. reflexivity.
Defined.

(** X17: [get_earthquake_stats] does the same: when the catalog is
    unavailable it returns the statistics of no event at all, count 0
    and both magnitudes 0, with the message that no earthquakes were
    found. *)
Theorem stats_report_failure_as_no_events
    (env : Server.Env) (start_time : string) (end_time : option string)
    (min_magnitude : pyvalue) (log : list Server.Event) :
  (forall headers params timeout log',
     Server.unavailable
       (Server.http_get_json env Server.USGS_API_BASE headers params
          timeout log')) ->
  fst (Server.get_earthquake_stats env start_time end_time min_magnitude log)
  = Ok (PyDict [ (PyString "count", PyInt 0);
                 (PyString "average_magnitude", PyInt 0);
                 (PyString "largest_magnitude", PyInt 0);
                 (PyString "message", PyString "No earthquakes found.") ]).
Proof.
  intro Hdown. unfold Server.get_earthquake_stats.
  unfold Server.bind at 1.
  destruct (Server.or_now env end_time log) as [[t|e] log1] eqn:E.
  2: { unfold Server.or_now, Server.ask, Server.ret in E.
       destruct end_time as [t|]; [destruct (t =? "")|]; discriminate E. }
  unfold Server.bind at 1.
  match goal with
  | |- context [Server.make_usgs_request env _ ?params log1] =>
      destruct (@usgs_unavailable env params log1 (Hdown _ _ _ _))
        as (data & log2 & -> & Hnone)
  end.
  unfold Server.bind at 1. unfold Server.lift at 1. rewrite Hnone.
  reflexivity.
Qed.

Lemma stats_report_failure_as_no_events_witness :
  fst (Server.get_earthquake_stats
         (Server.sample (Ok Server.tokyo)
            (Ok (PyDict [ (PyString "features", PyList []) ])))
         "2026-01-01" (Some "2026-01-08") (PyFloat "4.0") [])
  = Ok (PyDict [ (PyString "count", PyInt 0);
                 (PyString "average_magnitude", PyInt 0);
                 (PyString "largest_magnitude", PyInt 0);
                 (PyString "message", PyString "No earthquakes found.") ]).
Proof.
  apply (@stats_report_failure_as_no_events
           (Server.sample (Ok Server.tokyo)
              (Ok (PyDict [ (PyString "features", PyList []) ])))
           "2026-01-01" (Some "2026-01-08") (PyFloat "4.0") []).
  intros headers params timeout log'. reflexivity.
Defined.

Lemma firstn_slice_stop (fs : list pyvalue) (n : Z) :
  (0 <= n)%Z ->
  List.length (firstn (Server.slice_stop (List.length fs) (Some n)) fs)
    <= Z.to_nat n.
Proof.
  intro Hn. unfold Server.slice_stop.
  destruct (n <? 0)%Z eqn:E; [apply Z.ltb_lt in E; lia|].
  rewrite length_firstn. lia.
Qed.

(** X18: [get_earthquakes] reports the first features of the answer, in
    the order received, and cuts the list at [max_results] itself: with
    a limit that is not negative at most that many features are
    formatted, without a limit all of them are.  A feature that cannot
    be formatted fails the whole call. *)
Theorem get_earthquakes_reports_the_first_features
    (env : Server.Env) (start_time : string) (end_time : option string)
    (min_magnitude : pyvalue) (max_results : option Z)
    (log : list Server.Event)
    (items : list (pyvalue * pyvalue)) (fs : list pyvalue) :
  let kept := firstn (Server.slice_stop (List.length fs) max_results) fs in
  (forall headers params timeout log',
     Server.http_get_json env Server.USGS_API_BASE headers params
       timeout log' = Ok (PyDict items)) ->
  Server.lookup "features" items = Some (PyList fs) ->
  fs <> [] ->
  fst (Server.get_earthquakes env start_time end_time min_magnitude
         max_results log)
  = Server.and_then (Server.mapM (Server.format_usgs_request env) kept)
      (fun results => Ok (Server.join_lines results)) /\
  (forall n, max_results = Some n -> (0 <= n)%Z ->
             List.length kept <= Z.to_nat n) /\
  (max_results = None -> kept = fs).
Proof.
  intros kept Hget Hfeatures Hfs. split; [|split].
  - unfold Server.get_earthquakes.
    unfold Server.bind at 1.
    destruct (Server.or_now env end_time log) as [[t|e] log1] eqn:E.
    2: { unfold Server.or_now, Server.ask, Server.ret in E.
         destruct end_time as [t|]; [destruct (t =? "")|]; discriminate E. }
    unfold Server.bind at 1. unfold Server.make_usgs_request.
    unfold Server.try_except, Server.ask. rewrite Hget.
    assert (Htruthy : Server.truthy (PyDict items) = true).
    { destruct items; [discriminate Hfeatures|reflexivity]. }
    assert (Hlist : Server.truthy (PyList fs) = true).
    { destruct fs; [contradiction|reflexivity]. }
    unfold Server.bind at 1. unfold Server.lift at 1.
    unfold Server.no_features. rewrite Htruthy. cbn [negb].
    unfold Server.py_get, Server.and_then at 1. rewrite Hfeatures, Hlist.
    cbn [negb]. unfold Server.lift, Server.reports. cbn [fst].
    unfold Server.py_getitem. rewrite Hfeatures.
    reflexivity.
  - intros n -> Hn. apply firstn_slice_stop, Hn.
  - intros ->. subst kept. cbn [Server.slice_stop]. apply firstn_all.
Qed.

Lemma get_earthquakes_reports_the_first_features_witness :
  let env :=
    Server.sample (Ok Server.tokyo)
      (Ok (PyDict [ (PyString "features",
                     PyList [Server.quake; Server.quake; Server.quake]) ])) in
  fst (Server.get_earthquakes env "2026-01-01" None (PyFloat "3.0")
         (Some 2%Z) [])
  = Server.and_then
      (Server.mapM (Server.format_usgs_request env)
         [Server.quake; Server.quake])
      (fun results => Ok (Server.join_lines results)).
Proof.
  intro env.
  apply (@get_earthquakes_reports_the_first_features env "2026-01-01" None
           (PyFloat "3.0") (Some 2%Z) []
           [ (PyString "features",
              PyList [Server.quake; Server.quake; Server.quake]) ]
           [Server.quake; Server.quake; Server.quake]).
  - intros headers params timeout log'. reflexivity.
  - reflexivity.
  - discriminate.
Defined.

(** ** Formatting a feature *)

(** X19: a feature is shown with all three of depth, latitude and
    longitude, or with none.  When its coordinates are a list of any
    other length than three (a point of longitude and latitude only),
    the report shows None for the three, next to the place, magnitude
    and link of the feature or their placeholders; the only way to fail
    is the formatting of the time. *)
Theorem coordinates_of_other_length_are_dropped
    (env : Server.Env) (items props geom : list (pyvalue * pyvalue))
    (cs : list pyvalue) :
  let field key default :=
    match Server.lookup key props with Some v => v | None => default end in
  let time_ms := field "time" PyNone in
  Server.lookup "properties" items = Some (PyDict props) ->
  Server.lookup "geometry" items = Some (PyDict geom) ->
  Server.lookup "coordinates" geom = Some (PyList cs) ->
  List.length cs <> 3 ->
  Server.format_usgs_request env (PyDict items)
  = Server.and_then
      (if Server.truthy time_ms then Server.utc_time_str env time_ms
       else Ok "Unknown time")
      (fun time_str =>
         Ok (Server.report
               (Server.py_str env (field "place" (PyString "Unknown location")))
               (Server.py_str env (field "mag" (PyString "N/A")))
               time_str "None" "None" "None"
               (Server.py_str env (field "url" (PyString "No URL available"))))).
Proof.
  intros field time_ms Hprops Hgeom Hcoords Hlen.
  apply Nat.eqb_neq in Hlen.
  unfold Server.format_usgs_request.
  unfold Server.py_getitem at 1. rewrite Hprops. cbn [Server.and_then].
  unfold Server.py_get at 1. rewrite Hgeom.
  cbn [Server.and_then Server.py_get]. rewrite Hcoords.
  fold (field "time" PyNone). fold time_ms.
  destruct (if Server.truthy time_ms then Server.utc_time_str env time_ms
            else Ok "Unknown time") as [time_str|e]; cbn [Server.and_then];
    [|reflexivity].
  cbn [Server.py_len Server.and_then]. rewrite Hlen.
  reflexivity.
Qed.

Lemma coordinates_of_other_length_are_dropped_witness :
  Server.format_usgs_request (Server.sample (Ok Server.tokyo) (Ok PyNone))
    Server.quake
  = Ok (Server.report "10 km E of Tokyo" "4.2" "Unknown time"
          "None" "None" "None" "No URL available").
Proof.
  apply (@coordinates_of_other_length_are_dropped
           (Server.sample (Ok Server.tokyo) (Ok PyNone))
           [ (PyString "properties",
              PyDict [ (PyString "mag", PyFloat "4.2");
                       (PyString "place", PyString "10 km E of Tokyo") ]);
             (PyString "geometry",
              PyDict [ (PyString "coordinates",
                        PyList [PyFloat "139.9"; PyFloat "35.7"]) ]) ]
           [ (PyString "mag", PyFloat "4.2");
             (PyString "place", PyString "10 km E of Tokyo") ]
           [ (PyString "coordinates",
              PyList [PyFloat "139.9"; PyFloat "35.7"]) ]
           [PyFloat "139.9"; PyFloat "35.7"]);
    try reflexivity; discriminate.
Defined.

(** X20: what makes [format_usgs_request] raise on a feature.  Without
    the key ["properties"] it raises [KeyError]; the placeholder for a
    missing geometry does not cover a geometry that is present and
    null: such a feature is never formatted. *)
Theorem feature_without_properties_or_geometry_raises
    (env : Server.Env) (items : list (pyvalue * pyvalue)) :
  (Server.lookup "properties" items = None ->
   Server.format_usgs_request env (PyDict items)
   = Raise (Server.KeyError "properties")) /\
  (Server.lookup "geometry" items = Some PyNone ->
   exists e, Server.format_usgs_request env (PyDict items) = Raise e).
Proof.
  split.
  - intro H. unfold Server.format_usgs_request, Server.py_getitem.
    rewrite H. reflexivity.
  - intro H. unfold Server.format_usgs_request.
    unfold Server.py_get at 1. rewrite H.
    repeat match goal with
           | |- context [Server.and_then (Ok _) _] =>
               cbn [Server.and_then Server.py_get]
           | |- context [Server.and_then (Raise _) _] =>
               cbn [Server.and_then Server.py_get]
           | |- context [Server.and_then ?x _] => destruct x
           end; eauto.
Qed.

Lemma feature_without_properties_or_geometry_raises_witness :
  Server.format_usgs_request (Server.sample (Ok Server.tokyo) (Ok PyNone))
    (PyDict [ (PyString "type", PyString "Feature");
              (PyString "geometry", PyNone) ])
  = Raise (Server.KeyError "properties").
Proof.
  destruct (@feature_without_properties_or_geometry_raises
              (Server.sample (Ok Server.tokyo) (Ok PyNone))
              [ (PyString "type", PyString "Feature");
                (PyString "geometry", PyNone) ]) as [Hmissing _].
  apply Hmissing. reflexivity.
Defined.

(** ** Statistics *)

Lemma magnitudes_not_none (features : list pyvalue) :
  forall mags,
    Server.magnitudes features = Ok mags ->
    ~ In PyNone mags /\ List.length mags <= List.length features.
Proof.
  induction features as [|f rest IH]; intros mags; cbn [Server.magnitudes].
  - intro H. injection H as <-. cbn. auto.
  - unfold Server.and_then.
    destruct (Server.py_getitem f "properties") as [props|]; [|discriminate].
    destruct (Server.py_get props "mag" PyNone) as [mag|]; [|discriminate].
    destruct (Server.magnitudes rest) as [ms|]; [|discriminate].
    destruct (IH ms eq_refl) as [Hnone Hlen].
    intro H. injection H as <-.
    destruct mag; cbn [In List.length]; split; try lia; try exact Hnone;
      intros [E|E]; try discriminate E; auto.
Qed.

(** X21: the statistics count the features that have a magnitude.  With
    features in the answer, those whose magnitude is missing or null
    are left out; when none is left the tool returns the zero
    statistics (without a message), and otherwise [num_events] is the
    number of magnitudes kept, next to their rounded mean and their
    maximum and the time window that was asked. *)
Theorem stats_count_the_events_with_a_magnitude
    (env : Server.Env) (start_time end_time : string)
    (min_magnitude : pyvalue) (log : list Server.Event)
    (items : list (pyvalue * pyvalue)) (fs mags : list pyvalue) :
  let answer :=
    fst (Server.get_earthquake_stats env start_time (Some end_time)
           min_magnitude log) in
  (end_time =? "") = false ->
  (forall headers params timeout log',
     Server.http_get_json env Server.USGS_API_BASE headers params
       timeout log' = Ok (PyDict items)) ->
  Server.lookup "features" items = Some (PyList fs) ->
  fs <> [] ->
  Server.magnitudes fs = Ok mags ->
  ~ In PyNone mags /\
  List.length mags <= List.length fs /\
  (mags = [] ->
   answer = Ok (PyDict [ (PyString "count", PyInt 0);
                         (PyString "average_magnitude", PyInt 0);
                         (PyString "largest_magnitude", PyInt 0) ])) /\
  (mags <> [] ->
   forall avg_mag max_mag,
     Server.mean_round2 env mags = Ok avg_mag ->
     Server.max_of env mags = Ok max_mag ->
     answer = Ok (PyDict [ (PyString "num_events",
                            PyInt (Z.of_nat (List.length mags)));
                           (PyString "average_magnitude", avg_mag);
                           (PyString "largest_magnitude", max_mag);
                           (PyString "start_time", PyString start_time);
                           (PyString "end_time", PyString end_time);
                           (PyString "source",
                            PyString "USGS Earthquake API") ])).
Proof.
  intros answer Hend Hget Hfeatures Hfs Hmags.
  destruct (magnitudes_not_none fs Hmags) as [Hnone Hlen].
  split; [exact Hnone|]. split; [exact Hlen|].
  assert (Htruthy : Server.truthy (PyDict items) = true).
  { destruct items; [discriminate Hfeatures|reflexivity]. }
  assert (Hlist : Server.truthy (PyList fs) = true).
  { destruct fs; [contradiction|reflexivity]. }
  assert (Hrun : answer =
            fst (match mags with
                 | [] =>
                     Server.ret
                       (PyDict [ (PyString "count", PyInt 0);
                                 (PyString "average_magnitude", PyInt 0);
                                 (PyString "largest_magnitude", PyInt 0) ])
                 | _ =>
                     Server.bind (Server.lift (Server.mean_round2 env mags))
                       (fun avg_mag =>
                          Server.bind (Server.lift (Server.max_of env mags))
                            (fun max_mag =>
                               Server.ret
                                 (PyDict
                                    [ (PyString "num_events",
                                       PyInt (Z.of_nat (List.length mags)));
                                      (PyString "average_magnitude", avg_mag);
                                      (PyString "largest_magnitude", max_mag);
                                      (PyString "start_time",
                                       PyString start_time);
                                      (PyString "end_time", PyString end_time);
                                      (PyString "source",
                                       PyString "USGS Earthquake API") ])))
                 end
                   (Server.Get Server.USGS_API_BASE
                      (Some Server.usgs_headers)
                      (PyDict
                         [ (PyString "format", PyString "geojson");
                           (PyString "starttime", PyString start_time);
                           (PyString "endtime", PyString end_time);
                           (PyString "minmagnitude", min_magnitude);
                           (PyString "orderby", PyString "time") ])
                      "30.0" :: log))).
  { subst answer. unfold Server.get_earthquake_stats.
    unfold Server.bind at 1. unfold Server.or_now. rewrite Hend.
    unfold Server.ret at 1.
    unfold Server.bind at 1. unfold Server.make_usgs_request.
    unfold Server.try_except, Server.ask. rewrite Hget.
    unfold Server.bind at 1. unfold Server.lift at 1.
    unfold Server.no_features. rewrite Htruthy. cbn [negb].
    unfold Server.py_get, Server.and_then at 1. rewrite Hfeatures, Hlist.
    cbn [negb].
    unfold Server.bind at 1. unfold Server.lift at 1.
    unfold Server.py_getitem. rewrite Hfeatures.
    cbn [Server.and_then Server.py_iter].
    unfold Server.bind at 1. unfold Server.lift at 1. rewrite Hmags.
    reflexivity. }
  split.
  - intros ->. rewrite Hrun. reflexivity.
  - intros Hmags' avg_mag max_mag Havg Hmax.
    rewrite Hrun. destruct mags as [|m ms]; [contradiction|].
    unfold Server.bind, Server.lift. rewrite Havg, Hmax. reflexivity.
Qed.

Lemma stats_count_the_events_with_a_magnitude_witness :
  let silent :=
    PyDict [ (PyString "properties", PyDict [ (PyString "mag", PyNone) ]) ] in
  let env :=
    Server.sample (Ok Server.tokyo)
      (Ok (PyDict [ (PyString "features",
                     PyList [Server.quake; silent; Server.quake]) ])) in
  Server.lookup "num_events"
    match fst (Server.get_earthquake_stats env "2026-01-01"
                 (Some "2026-01-08") (PyFloat "4.0") []) with
    | Ok (PyDict stats) => stats
    | _ => []
    end
  = Some (PyInt 2).
Proof.
  intros silent env.
  destruct (@stats_count_the_events_with_a_magnitude env
              "2026-01-01" "2026-01-08" (PyFloat "4.0") []
              [ (PyString "features",
                 PyList [Server.quake; silent; Server.quake]) ]
              [Server.quake; silent; Server.quake]
              [PyFloat "4.2"; PyFloat "4.2"]
              eq_refl (fun _ _ _ _ => eq_refl) eq_refl
              ltac:(discriminate) eq_refl) as (_ & _ & _ & Hsome).
  rewrite (Hsome ltac:(discriminate) (PyFloat "4.2") (PyFloat "4.2")
             eq_refl eq_refl).
  reflexivity.
Defined.

(** * Connecting, from any state *)

(** X22: [connect_to_server] leaves on the exit stack exactly the
    contexts it has entered, newest on top, however far it got.  It
    exits nothing itself, and it sets the session attribute only once
    both are entered.  Stage by stage: a refused path raises
    [ValueError] and changes nothing; when the process does not start,
    only the spawn is recorded and nothing is stacked; when the session
    context cannot be entered, the Transport alone is stacked and the
    session attribute is as before; when the handshake or the discovery
    fails, Transport and Session are stacked and the attribute is set;
    when the discovery answers, the names of the tools are printed and
    the call returns. *)
Theorem connect_stacks_what_it_entered
    (env : Env) (path : string) (st : State) :
  let command := if PyStr.endswith path ".py" then "python" else "node" in
  let t0 := EvSpawn command [path] :: trace st in
  let t1 := EvEnter Transport :: t0 in
  let t2 := EvEnter Session :: t1 in
  let t3 := EvRequest Initialize :: t2 in
  let t4 := EvRequest ListTools :: t3 in
  let reached (events : list Event) (news : list Resource) (set : bool) :=
    {| trace := events;
       exit_stack := news ++ exit_stack st;
       session := set |} in
  (let (r, st') := connect_to_server env path st in
   exists news,
     entered (trace st') = news ++ entered (trace st) /\
     exit_stack st' = news ++ exit_stack st /\
     exited (trace st') = exited (trace st) /\
     (news = [] \/ news = [Transport] \/ news = [Session; Transport]) /\
     (r = Ok tt -> news = [Session; Transport] /\ session st' = true) /\
     (news <> [Session; Transport] -> session st' = session st)) /\
  (PyStr.endswith path ".py" || PyStr.endswith path ".js" = false ->
   connect_to_server env path st
   = (Raise (Exn ValueError "Server script must be a .py or .js file"),
      st)) /\
  (PyStr.endswith path ".py" || PyStr.endswith path ".js" = true ->
   (forall e,
      stdio_client env command [path] t0 = Raise e ->
      connect_to_server env path st
      = (Raise e, reached t0 [] (session st))) /\
   (forall e,
      stdio_client env command [path] t0 = Ok tt ->
      client_session env t1 = Raise e ->
      connect_to_server env path st
      = (Raise e, reached t1 [Transport] (session st))) /\
   (forall e,
      stdio_client env command [path] t0 = Ok tt ->
      client_session env t1 = Ok tt ->
      initialize env t2 = Raise e ->
      connect_to_server env path st
      = (Raise e, reached t3 [Session; Transport] true)) /\
   (forall e,
      stdio_client env command [path] t0 = Ok tt ->
      client_session env t1 = Ok tt ->
      initialize env t2 = Ok tt ->
      list_tools env t3 = Raise e ->
      connect_to_server env path st
      = (Raise e, reached t4 [Session; Transport] true)) /\
   (forall tools,
      stdio_client env command [path] t0 = Ok tt ->
      client_session env t1 = Ok tt ->
      initialize env t2 = Ok tt ->
      list_tools env t3 = Ok tools ->
      connect_to_server env path st
      = (Ok tt,
         reached (EvPrintTools (map Tool.name tools) :: t4)
           [Session; Transport] true))).
Proof.
  intros command t0 t1 t2 t3 t4 reached.
  split; [|split].
  - unfold connect_to_server.
    destruct (negb _).
    + cbn. exists []. repeat split; auto; discriminate.
    + run. repeat (step; cbn);
        solve [ exists []; repeat split; auto; try discriminate;
                intro H; contradiction H; reflexivity
              | exists [Transport]; repeat split; auto; try discriminate;
                intro H; contradiction H; reflexivity
              | exists [Session; Transport]; repeat split; auto;
                try discriminate; intro H; contradiction H; reflexivity ].
  - intro Hx. unfold connect_to_server. rewrite Hx. cbn [negb].
    destruct st; reflexivity.
  - intro Hx. subst command t0 t1 t2 t3 t4 reached.
    unfold connect_to_server. rewrite Hx. cbn [negb].
    unfold bind, log, enter_async_context, set_session, session_request,
      ask. cbn [trace exit_stack session].
    repeat split.
    + intros e H0. rewrite H0. reflexivity.
    + intros e H0 H1. rewrite H0. cbn [trace exit_stack session].
      rewrite H1. reflexivity.
    + intros e H0 H1 H2. rewrite H0. cbn [trace exit_stack session].
      rewrite H1. cbn [trace exit_stack session]. rewrite H2. reflexivity.
    + intros e H0 H1 H2 H3. rewrite H0. cbn [trace exit_stack session].
      rewrite H1. cbn [trace exit_stack session]. rewrite H2, H3.
      reflexivity.
    + intros tools H0 H1 H2 H3. rewrite H0. cbn [trace exit_stack session].
      rewrite H1. cbn [trace exit_stack session]. rewrite H2, H3.
      reflexivity.
Qed.

Lemma connect_stacks_what_it_entered_witness :
  connect_to_server Sample.no_handshake "server.py" init
  = (Raise (Exn (OtherException "McpError") "Connection closed"),
     {| trace := [EvRequest Initialize; EvEnter Session; EvEnter Transport;
                  EvSpawn "python" ["server.py"]];
        exit_stack := [Session; Transport];
        session := true |}).
Proof.
  pose proof (@connect_stacks_what_it_entered
                Sample.no_handshake "server.py" init) as H.
  cbv zeta in H. destruct H as (_ & _ & H).
  destruct (H eq_refl) as (_ & _ & Hi & _).
  apply Hi; reflexivity.
Defined.
